(** * Cultura Chupistica back-end: the game entity and its commands

    A shallow embedding of [src/domain/models/Card.js], [src/domain/models/Game.js],
    the parts of [src/domain/services/GameService.js] and
    [src/domain/services/GameValidationService.js] that guard and interpret a
    draw, and the use case [DrawCard].

    Conventions.
    - A JavaScript method that mutates [this] and may throw becomes a function
      from the state to [result]: [Ok] carries the new state (and the returned
      value), [Throw] the error.  Every modelled method performs its checks
      before its first assignment, so a [Throw] leaves the state as it was.
    - [new Date()] reads the clock: the current time is an explicit argument
      [now], in milliseconds.
    - Plain objects the code stores and hands around untouched (history
      entries, saved cards, cup and venganza entries, rules) are kept as
      JavaScript values ([JS.val]); class instances ([Card], [Game]) are
      records.
    - The repository is a port injected into the use case: what
      [findByCode] returned is an argument, and [save] is taken to return the
      game it was given. *)

From Stdlib Require Import ZArith Lia.
From stdpp Require Import base option list strings relations.

Set Warnings "-register-all".

Local Open Scope string_scope.
Local Open Scope Z_scope.
Local Open Scope list_scope.

(* ------------------------------------------------------------------ *)
(** ** JavaScript values and the array and object operations the code uses *)

Module JS.

Inductive val : Type :=
| Undefined
| Null
| Bool (b : bool)
| Num (n : Z)
| Str (s : string)
| Date (ms : Z)
| Arr (items : list val)
| Obj (fields : list (string * val)).

(** Truthiness, as [x || d] and [if (x)] test it.  Arrays, objects and dates
    are objects and hence always truthy. *)
Definition truthy (v : val) : bool :=
  match v with
  | Undefined | Null => false
  | Bool b => b
  | Num n => negb (n =? 0)
  | Str s => negb (String.eqb s "")
  | Date _ | Arr _ | Obj _ => true
  end.

(** [o[k]] on the own properties of an object literal. *)
Fixpoint lookup_field {A} (k : string) (fs : list (string * A)) : option A :=
  match fs with
  | [] => None
  | (k', v) :: r => if String.eqb k k' then Some v else lookup_field k r
  end.

(** [v.k]: [undefined] when the property is absent. *)
Definition get (k : string) (v : val) : val :=
  match v with
  | Obj fs => default Undefined (lookup_field k fs)
  | _ => Undefined
  end.

(** [o[k] = v]: an existing property keeps its place, a new one goes last.
    (The engine lists integer-like keys before the others; that reordering is
    not modelled, no statement below depends on the order of the keys.) *)
Fixpoint set_field {A} (k : string) (v : A) (fs : list (string * A)) : list (string * A) :=
  match fs with
  | [] => [(k, v)]
  | (k', v') :: r =>
      if String.eqb k k' then (k', v) :: r else (k', v') :: set_field k v r
  end.

(** [delete o[k]]. *)
Definition delete_field {A} (k : string) (fs : list (string * A)) : list (string * A) :=
  List.filter (fun kv => negb (String.eqb k (fst kv))) fs.

(** [l.includes(x)] and [l.indexOf(x)] on an array of strings. *)
Definition includes (x : string) (l : list string) : bool :=
  existsb (String.eqb x) l.

Fixpoint indexOf (x : string) (l : list string) : option nat :=
  match l with
  | [] => None
  | y :: r => if String.eqb x y then Some 0%nat else S <$> indexOf x r
  end.

(** [l.splice(i, 1)], for [i] a valid index. *)
Definition splice1 {A} (i : nat) (l : list A) : list A :=
  take i l ++ drop (S i) l.

(** [l[i]] for a number [i]: [undefined] ([None]) outside the array. *)
Definition index {A} (l : list A) (i : Z) : option A :=
  if i <? 0 then None else l !! Z.to_nat i.

(** [l.pop()]: the last element and the array without it. *)
Fixpoint pop {A} (l : list A) : option (list A * A) :=
  match l with
  | [] => None
  | x :: r =>
      match pop r with
      | None => Some ([], x)
      | Some (r', y) => Some (x :: r', y)
      end
  end.

(** [l.find(p)]. *)
Definition find {A} (p : A -> bool) (l : list A) : option A := List.find p l.

(** [a % n] on integers: the remainder takes the sign of [a].  For [n = 0]
    JavaScript yields [NaN]; the code reaches [%] only with a non-empty
    player list. *)
Definition rem (a n : Z) : Z := Z.rem a n.

Definition len {A} (l : list A) : Z := Z.of_nat (length l).

(** [l.findIndex(p)]: the first position whose element satisfies [p]
    ([None] stands for -1). *)
Fixpoint findIndex {A} (p : A -> bool) (l : list A) : option nat :=
  match l with
  | [] => None
  | x :: r => if p x then Some 0%nat else S <$> findIndex p r
  end.

(** [s.charAt(i)]: the empty string outside the string. *)
Definition charAt (i : nat) (s : string) : string := String.substring i 1 s.

End JS.

(* ------------------------------------------------------------------ *)
(** ** Errors and results *)

Inductive Error : Type :=
| GameAlreadyStarted      (* addPlayer outside waiting *)
| PlayerAlreadyInGame
| GameFull
| StartNotWaiting
| NotEnoughPlayers
| GameNotStarted
| NotPlayersTurn
| PlayerNotInGame
| MaxSavedCards
| CardNotSaved
| VenganzaOnlyAtEnd
| NoVenganzaCards
| TargetNotInGame
| TypeError               (* reading a property of undefined *).

Definition error_message (e : Error) : string :=
  match e with
  | GameAlreadyStarted => "No se puede unir a una partida que ya ha comenzado"
  | PlayerAlreadyInGame => "El jugador ya está en la partida"
  | GameFull => "La partida está completa (máximo 8 jugadores)"
  | StartNotWaiting => "La partida ya ha comenzado o ha terminado"
  | NotEnoughPlayers => "Se necesitan al menos 2 jugadores para iniciar"
  | GameNotStarted => "La partida no ha comenzado"
  | NotPlayersTurn => "No es el turno de este jugador"
  | PlayerNotInGame => "El jugador no está en la partida"
  | MaxSavedCards => "El jugador ya tiene el máximo de cartas guardadas (3)"
  | CardNotSaved => "La carta no está guardada"
  | VenganzaOnlyAtEnd => "La venganza solo se puede usar al final del juego"
  | NoVenganzaCards => "Este jugador no tiene cartas de venganza"
  | TargetNotInGame => "El jugador objetivo no está en la partida"
  | TypeError => "Cannot read properties of undefined"
  end.

Inductive result (A : Type) : Type :=
| Ok (a : A)
| Throw (e : Error).
Arguments Ok {A} a.
Arguments Throw {A} e.

(* ------------------------------------------------------------------ *)
(** ** Card.js *)

Module Card.

Inductive Suit := hearts | diamonds | clubs | spades.
Inductive Rank := RA | R2 | R3 | R4 | R5 | R6 | R7 | R8 | R9 | R10 | RJ | RQ | RK.

Record t := mk { suit : Suit; rank : Rank }.

Definition suit_str (s : Suit) : string :=
  match s with
  | hearts => "hearts" | diamonds => "diamonds" | clubs => "clubs" | spades => "spades"
  end.

Definition rank_str (r : Rank) : string :=
  match r with
  | RA => "A" | R2 => "2" | R3 => "3" | R4 => "4" | R5 => "5" | R6 => "6" | R7 => "7"
  | R8 => "8" | R9 => "9" | R10 => "10" | RJ => "J" | RQ => "Q" | RK => "K"
  end.

Definition all_suits : list Suit := [hearts; diamonds; clubs; spades].
Definition all_ranks : list Rank := [RA; R2; R3; R4; R5; R6; R7; R8; R9; R10; RJ; RQ; RK].

Definition suit_of_str (s : string) : option Suit :=
  List.find (fun x => String.eqb s (suit_str x)) all_suits.
Definition rank_of_str (s : string) : option Rank :=
  List.find (fun x => String.eqb s (rank_str x)) all_ranks.

Definition rank_eqb (a b : Rank) : bool := String.eqb (rank_str a) (rank_str b).

(** [this.id = `${rank}_${suit}`] *)
Definition id (c : t) : string := rank_str (rank c) +:+ "_" +:+ suit_str (suit c).

Definition getValue (c : t) : Z :=
  match rank c with
  | RA => 1 | RJ => 11 | RQ => 12 | RK => 13
  | R2 => 2 | R3 => 3 | R4 => 4 | R5 => 5 | R6 => 6 | R7 => 7 | R8 => 8 | R9 => 9 | R10 => 10
  end.

Definition getFullName (c : t) : string :=
  let suitName :=
    match suit c with
    | hearts => "Corazones" | diamonds => "Diamantes" | clubs => "Tréboles" | spades => "Picas"
    end in
  let rankName :=
    match rank c with
    | RA => "As" | RJ => "Jota" | RQ => "Reina" | RK => "Rey"
    | r => rank_str r
    end in
  rankName +:+ " de " +:+ suitName.

Definition isFaceCard (c : t) : bool :=
  match rank c with RJ | RQ | RK => true | _ => false end.
Definition isAce (c : t) : bool :=
  match rank c with RA => true | _ => false end.
Definition isRed (c : t) : bool :=
  match suit c with hearts | diamonds => true | _ => false end.
Definition isBlack (c : t) : bool :=
  match suit c with clubs | spades => true | _ => false end.

Definition toJSON (c : t) : JS.val :=
  JS.Obj [ ("id", JS.Str (id c));
           ("suit", JS.Str (suit_str (suit c)));
           ("rank", JS.Str (rank_str (rank c)));
           ("value", JS.Num (getValue c));
           ("fullName", JS.Str (getFullName c));
           ("isFaceCard", JS.Bool (isFaceCard c));
           ("isAce", JS.Bool (isAce c));
           ("isRed", JS.Bool (isRed c));
           ("isBlack", JS.Bool (isBlack c)) ].

(** [new Card(cardData.suit, cardData.rank)].  The record holds the cards of
    the 52-card deck only: data naming another suit or rank has no image. *)
Definition fromJSON (cardData : JS.val) : option t :=
  match JS.get "suit" cardData, JS.get "rank" cardData with
  | JS.Str s, JS.Str r =>
      match suit_of_str s, rank_of_str r with
      | Some s', Some r' => Some (mk s' r')
      | _, _ => None
      end
  | _, _ => None
  end.

End Card.

(* ------------------------------------------------------------------ *)
(** ** Game.js *)

Module Game.

Inductive Status := waiting | started | ended.

Definition status_str (s : Status) : string :=
  match s with waiting => "waiting" | started => "started" | ended => "ended" end.

Definition status_of_str (s : string) : option Status :=
  List.find (fun x => String.eqb s (status_str x)) [waiting; started; ended].

Definition status_eqb (a b : Status) : bool := String.eqb (status_str a) (status_str b).

Record t := mk {
  code : string;
  host : string;
  players : list string;
  deck : list Card.t;                      (* drawn from the tail *)
  history : list JS.val;
  rules : list (string * JS.val);          (* rank -> text *)
  status : Status;
  currentTurn : Z;
  createdAt : Z;
  startedAt : option Z;                    (* null until started *)
  endedAt : option Z;
  savedCards : list (string * list JS.val);(* player -> saved card objects *)
  kingsCount : Z;
  cupContent : list JS.val;
  venganzaCards : list JS.val
}.

(** Assignments [this.field = v]. *)
Definition set_host (v : string) (g : t) : t :=
  mk (code g) v (players g) (deck g) (history g) (rules g) (status g)
     (currentTurn g) (createdAt g) (startedAt g) (endedAt g) (savedCards g)
     (kingsCount g) (cupContent g) (venganzaCards g).

Definition set_players (v : list string) (g : t) : t :=
  mk (code g) (host g) v (deck g) (history g) (rules g) (status g)
     (currentTurn g) (createdAt g) (startedAt g) (endedAt g) (savedCards g)
     (kingsCount g) (cupContent g) (venganzaCards g).

Definition set_deck (v : list Card.t) (g : t) : t :=
  mk (code g) (host g) (players g) v (history g) (rules g) (status g)
     (currentTurn g) (createdAt g) (startedAt g) (endedAt g) (savedCards g)
     (kingsCount g) (cupContent g) (venganzaCards g).

Definition set_history (v : list JS.val) (g : t) : t :=
  mk (code g) (host g) (players g) (deck g) v (rules g) (status g)
     (currentTurn g) (createdAt g) (startedAt g) (endedAt g) (savedCards g)
     (kingsCount g) (cupContent g) (venganzaCards g).

Definition set_status (v : Status) (g : t) : t :=
  mk (code g) (host g) (players g) (deck g) (history g) (rules g) v
     (currentTurn g) (createdAt g) (startedAt g) (endedAt g) (savedCards g)
     (kingsCount g) (cupContent g) (venganzaCards g).

Definition set_currentTurn (v : Z) (g : t) : t :=
  mk (code g) (host g) (players g) (deck g) (history g) (rules g) (status g)
     v (createdAt g) (startedAt g) (endedAt g) (savedCards g)
     (kingsCount g) (cupContent g) (venganzaCards g).

Definition set_startedAt (v : option Z) (g : t) : t :=
  mk (code g) (host g) (players g) (deck g) (history g) (rules g) (status g)
     (currentTurn g) (createdAt g) v (endedAt g) (savedCards g)
     (kingsCount g) (cupContent g) (venganzaCards g).

Definition set_endedAt (v : option Z) (g : t) : t :=
  mk (code g) (host g) (players g) (deck g) (history g) (rules g) (status g)
     (currentTurn g) (createdAt g) (startedAt g) v (savedCards g)
     (kingsCount g) (cupContent g) (venganzaCards g).

Definition set_savedCards (v : list (string * list JS.val)) (g : t) : t :=
  mk (code g) (host g) (players g) (deck g) (history g) (rules g) (status g)
     (currentTurn g) (createdAt g) (startedAt g) (endedAt g) v
     (kingsCount g) (cupContent g) (venganzaCards g).

Definition set_kingsCount (v : Z) (g : t) : t :=
  mk (code g) (host g) (players g) (deck g) (history g) (rules g) (status g)
     (currentTurn g) (createdAt g) (startedAt g) (endedAt g) (savedCards g)
     v (cupContent g) (venganzaCards g).

Definition set_cupContent (v : list JS.val) (g : t) : t :=
  mk (code g) (host g) (players g) (deck g) (history g) (rules g) (status g)
     (currentTurn g) (createdAt g) (startedAt g) (endedAt g) (savedCards g)
     (kingsCount g) v (venganzaCards g).

Definition set_venganzaCards (v : list JS.val) (g : t) : t :=
  mk (code g) (host g) (players g) (deck g) (history g) (rules g) (status g)
     (currentTurn g) (createdAt g) (startedAt g) (endedAt g) (savedCards g)
     (kingsCount g) (cupContent g) v.

(** [_createDeck], before the shuffle: suits outermost, ranks innermost. *)
Definition _createDeck_ordered : list Card.t :=
  concat (map (fun s => map (fun r => Card.mk s r) Card.all_ranks) Card.all_suits).

Definition dquote : string := String (Ascii.ascii_of_nat 34) EmptyString.

Definition _getDefaultRules : list (string * JS.val) :=
  [ ("A", JS.Str "Venganza - Se usa para hacer tomar a alguien cuando se acabe el juego");
    ("2", JS.Str "A vos - Toma la persona que sacó la carta");
    ("3", JS.Str "Yo nunca nunca - Las personas alzan 3 dedos y van diciendo cosas que nunca hayan hecho pero que piensen que los demás sí, para que bajen los dedos. La persona o personas que bajen todos sus dedos deben tomar");
    ("4", JS.Str ("Al más gato (ojos más claros) o Mi barquito - " +:+ dquote +:+
                  "Mi barquito viene cargado de..." +:+ dquote +:+
                  " (ejemplo: marcas de celulares)"));
    ("5", JS.Str "Al brinco - La persona guarda esta carta y cuando quiera usarla cuenta 1,2,3 al brinco y el último que salte toma");
    ("6", JS.Str "Al que vez - La primera persona a la que veas tiene que tomar");
    ("7", JS.Str "7 pum - Todo número multiplicado o terminado en 7 no se nombra, se dice pum y cambia el sentido de juego");
    ("8", JS.Str "Al más joven o Colores - Rojos: al más pequeño de cualquier cosa, Negros: al más grande de cualquier cosa");
    ("9", JS.Str "Al que se mueve - La persona guarda esta carta y cuando quiera usarla cuenta 1,2,3 al que se mueve. El que sacó la carta puede moverse y ver quién se mueve para que tome");
    ("10", JS.Str "Al juez (quien está sirviendo) o Historia - Entre todos forman una historia diciendo una palabra, repitiendo las anteriores y sumando una más hasta que alguien se equivoque");
    ("J", JS.Str "El jugador de la izquierda toma");
    ("Q", JS.Str "El jugador de la derecha toma");
    ("K", JS.Str "Copa del Rey - 1ra K: llenar 1/4 del vaso con licor, 2da K: añadir más, 3ra K: completar más, 4ta K: llenar completamente y tomárselo") ].

(** [new Game(code, host)].  [shuffled] is the outcome of [_shuffleDeck] on
    the ordered deck (it draws from [Math.random]); [now] is the clock. *)
Definition new (code host : string) (shuffled : list Card.t) (now : Z) : t :=
  {| code := code; host := host; players := [host]; deck := shuffled;
     history := []; rules := _getDefaultRules; status := waiting;
     currentTurn := 0; createdAt := now; startedAt := None; endedAt := None;
     savedCards := []; kingsCount := 0; cupContent := []; venganzaCards := [] |}.

(** [v.playerId === p] on a stored entry. *)
Definition playerId_is (p : string) (v : JS.val) : bool :=
  match JS.get "playerId" v with
  | JS.Str s => String.eqb s p
  | _ => false
  end.

Definition getCurrentPlayer (g : t) : option string :=
  JS.index (players g) (currentTurn g).

Definition endGame (now : Z) (g : t) : t :=
  set_endedAt (Some now) (set_status ended g).

Definition nextTurn (g : t) : t :=
  if status_eqb (status g) started
  then set_currentTurn (JS.rem (currentTurn g + 1) (JS.len (players g))) g
  else g.

Definition addPlayer (playerId : string) (g : t) : result t :=
  if negb (status_eqb (status g) waiting) then Throw GameAlreadyStarted
  else if JS.includes playerId (players g) then Throw PlayerAlreadyInGame
  else if 8 <=? JS.len (players g) then Throw GameFull
  else Ok (set_savedCards (JS.set_field playerId [] (savedCards g))
             (set_players (players g ++ [playerId]) g)).

(** Returns [false] and changes nothing when the player is absent. *)
Definition removePlayer (playerId : string) (g : t) : bool * t :=
  match JS.indexOf playerId (players g) with
  | None => (false, g)
  | Some i =>
      let g1 := set_players (JS.splice1 i (players g)) g in
      let g2 := set_savedCards (JS.delete_field playerId (savedCards g1)) g1 in
      let g3 :=
        if String.eqb (host g2) playerId && (0 <? JS.len (players g2))
        then set_host (default (host g2) (JS.index (players g2) 0)) g2
        else g2 in
      let g4 :=
        if JS.len (players g3) <=? currentTurn g3 then set_currentTurn 0 g3 else g3 in
      (true, g4)
  end.

Definition startGame (now : Z) (g : t) : result t :=
  if negb (status_eqb (status g) waiting) then Throw StartNotWaiting
  else if JS.len (players g) <? 2 then Throw NotEnoughPlayers
  else
    let g1 := set_currentTurn 0 (set_startedAt (Some now) (set_status started g)) in
    Ok (set_savedCards
          (fold_left (fun sc p => JS.set_field p [] sc) (players g1) (savedCards g1)) g1).

(** The entries [drawCard] appends. *)
Definition cupEntry (playerId : string) (kingNumber now : Z) : JS.val :=
  JS.Obj [ ("playerId", JS.Str playerId); ("kingNumber", JS.Num kingNumber);
           ("timestamp", JS.Date now) ].

Definition venganzaEntry (playerId : string) (card : Card.t) (now : Z) : JS.val :=
  JS.Obj [ ("playerId", JS.Str playerId); ("card", Card.toJSON card);
           ("timestamp", JS.Date now) ].

Definition historyEntry (card : Card.t) (playerId : string) (now : Z)
    (rule kingsCount : JS.val) : JS.val :=
  JS.Obj [ ("card", Card.toJSON card); ("playerId", JS.Str playerId);
           ("timestamp", JS.Date now); ("rule", rule); ("kingsCount", kingsCount) ].

(** [this.rules[card.rank]] *)
Definition ruleFor (g : t) (r : Card.Rank) : JS.val :=
  default JS.Undefined (JS.lookup_field (Card.rank_str r) (rules g)).

(** [this.getCurrentPlayer() !== playerId] *)
Definition isCurrentPlayer (g : t) (playerId : string) : bool :=
  match getCurrentPlayer g with
  | Some p => String.eqb p playerId
  | None => false
  end.

(** Returns the drawn card, or [null] ([None]) after ending the game when the
    deck is empty. *)
Definition drawCard (playerId : string) (now : Z) (g : t) : result (t * option Card.t) :=
  if negb (status_eqb (status g) started) then Throw GameNotStarted
  else if negb (isCurrentPlayer g playerId) then Throw NotPlayersTurn
  else
    match JS.pop (deck g) with
    | None => Ok (endGame now g, None)
    | Some (rest, card) =>
        let g1 := set_deck rest g in
        let g2 :=
          if Card.rank_eqb (Card.rank card) Card.RK then
            let g' := set_kingsCount (kingsCount g1 + 1) g1 in
            set_cupContent (cupContent g' ++ [cupEntry playerId (kingsCount g') now]) g'
          else g1 in
        let g3 :=
          if Card.rank_eqb (Card.rank card) Card.RA
          then set_venganzaCards (venganzaCards g2 ++ [venganzaEntry playerId card now]) g2
          else g2 in
        let entry :=
          historyEntry card playerId now (ruleFor g3 (Card.rank card))
            (if Card.rank_eqb (Card.rank card) Card.RK
             then JS.Num (kingsCount g3) else JS.Undefined) in
        let g4 := set_history (history g3 ++ [entry]) g3 in
        Ok (nextTurn g4, Some card)
    end.

Definition saveCard (playerId : string) (card : Card.t) (g : t) : result t :=
  if negb (JS.includes playerId (players g)) then Throw PlayerNotInGame
  else
    match JS.lookup_field playerId (savedCards g) with
    | None => Throw TypeError
    | Some cards =>
        if 3 <=? JS.len cards then Throw MaxSavedCards
        else Ok (set_savedCards
                   (JS.set_field playerId (cards ++ [Card.toJSON card]) (savedCards g)) g)
    end.

Definition venganzaRule : string := "Venganza - Hacer tomar a alguien al final del juego".

Definition venganzaHistoryEntry (card : JS.val) (playerId targetPlayerId : string)
    (now : Z) : JS.val :=
  JS.Obj [ ("card", card); ("playerId", JS.Str playerId);
           ("targetPlayerId", JS.Str targetPlayerId); ("timestamp", JS.Date now);
           ("rule", JS.Str venganzaRule); ("isVenganza", JS.Bool true) ].

(** What [useVenganza] returns. *)
Definition venganzaResult (card : JS.val) (playerId targetPlayerId : string)
    (now : Z) : JS.val :=
  JS.Obj [ ("card", card);
           ("message", JS.Str (playerId +:+ " usa venganza contra " +:+ targetPlayerId));
           ("playerId", JS.Str playerId); ("targetPlayerId", JS.Str targetPlayerId);
           ("timestamp", JS.Date now) ].

Definition useVenganza (playerId targetPlayerId : string) (now : Z) (g : t)
    : result (t * JS.val) :=
  if negb (status_eqb (status g) ended) then Throw VenganzaOnlyAtEnd
  else
    match JS.find (playerId_is playerId) (venganzaCards g) with
    | None => Throw NoVenganzaCards
    | Some venganzaCard =>
        if negb (JS.includes targetPlayerId (players g)) then Throw TargetNotInGame
        else
          let g1 :=
            set_venganzaCards
              (List.filter (fun v => negb (playerId_is playerId v)) (venganzaCards g)) g in
          let card := JS.get "card" venganzaCard in
          let g2 :=
            set_history
              (history g1 ++ [venganzaHistoryEntry card playerId targetPlayerId now]) g1 in
          Ok (g2, venganzaResult card playerId targetPlayerId now)
    end.

Definition getKingsCupStatus (g : t) : JS.val :=
  JS.Obj [ ("kingsCount", JS.Num (kingsCount g));
           ("cupContent", JS.Arr (cupContent g));
           ("isComplete", JS.Bool (4 <=? kingsCount g));
           ("nextAction",
            JS.Str (if kingsCount g <? 4 then "Añadir al vaso" else "Beber todo el vaso")) ].

Definition isGameOver (g : t) : bool :=
  status_eqb (status g) ended || (JS.len (deck g) =? 0).

(** [getStats]: cards per player of the list, the duration once both ends
    are known, and the first player with the highest non-zero count. *)
Definition cardsPerPlayer (g : t) : list (string * Z) :=
  fold_left
    (fun acc p => JS.set_field p (JS.len (List.filter (playerId_is p) (history g))) acc)
    (players g) [].

Definition mostActivePlayer (counts : list (string * Z)) : JS.val :=
  snd (fold_left
         (fun '(maxCards, best) '(p, count) =>
            if maxCards <? count then (count, JS.Str p) else (maxCards, best))
         counts (0, JS.Null)).

Definition getStats (g : t) : JS.val :=
  let counts := cardsPerPlayer g in
  JS.Obj [ ("totalCards", JS.Num (JS.len (history g)));
           ("cardsPerPlayer", JS.Obj ((fun '(p, n) => (p, JS.Num n)) <$> counts));
           ("duration",
            match startedAt g, endedAt g with
            | Some s, Some e => JS.Num (e - s)
            | _, _ => JS.Null
            end);
           ("mostActivePlayer", mostActivePlayer counts) ].

Definition date_or_null (d : option Z) : JS.val :=
  match d with Some ms => JS.Date ms | None => JS.Null end.

Definition str_or_undefined (s : option string) : JS.val :=
  match s with Some x => JS.Str x | None => JS.Undefined end.

Definition savedCards_obj (sc : list (string * list JS.val)) : JS.val :=
  JS.Obj ((fun '(p, cards) => (p, JS.Arr cards)) <$> sc).

Definition toJSON (g : t) : JS.val :=
  JS.Obj [ ("code", JS.Str (code g));
           ("host", JS.Str (host g));
           ("players", JS.Arr (JS.Str <$> players g));
           ("deck", JS.Arr (Card.toJSON <$> deck g));
           ("history", JS.Arr (history g));
           ("rules", JS.Obj (rules g));
           ("status", JS.Str (status_str (status g)));
           ("currentTurn", JS.Num (currentTurn g));
           ("currentPlayer", str_or_undefined (getCurrentPlayer g));
           ("createdAt", JS.Date (createdAt g));
           ("startedAt", date_or_null (startedAt g));
           ("endedAt", date_or_null (endedAt g));
           ("savedCards", savedCards_obj (savedCards g));
           ("cardsRemaining", JS.Num (JS.len (deck g)));
           ("isGameOver", JS.Bool (isGameOver g));
           ("stats", if status_eqb (status g) ended then getStats g else JS.Null);
           ("kingsCount", JS.Num (kingsCount g));
           ("cupContent", JS.Arr (cupContent g));
           ("kingsCupStatus", getKingsCupStatus g);
           ("venganzaCards", JS.Arr (venganzaCards g));
           ("availableVenganzas", JS.Num (JS.len (venganzaCards g))) ].

(** *** [Game.fromJSON]

    [x || d] keeps [x] when it is truthy.  The record holds typed fields, so
    data of another shape than the one [toJSON] writes (a code that is not a
    string, a card outside the deck, a date given as text) has no image:
    [None]. *)
Definition or_else (x d : JS.val) : JS.val := if JS.truthy x then x else d.

Definition as_str (v : JS.val) : option string :=
  match v with JS.Str s => Some s | _ => None end.
Definition as_num (v : JS.val) : option Z :=
  match v with JS.Num n => Some n | _ => None end.
Definition as_arr (v : JS.val) : option (list JS.val) :=
  match v with JS.Arr l => Some l | _ => None end.
Definition as_obj (v : JS.val) : option (list (string * JS.val)) :=
  match v with JS.Obj fs => Some fs | _ => None end.

(** [new Date(x)] for [x] a date or a number of milliseconds. *)
Definition new_Date (v : JS.val) : option Z :=
  match v with JS.Date ms => Some ms | JS.Num ms => Some ms | _ => None end.

(** [x ? new Date(x) : null] *)
Definition date_field (v : JS.val) : option (option Z) :=
  if JS.truthy v then Some <$> new_Date v else Some None.

Definition savedCards_entry (kv : string * JS.val) : option (string * list JS.val) :=
  pair (fst kv) <$> as_arr (snd kv).

Definition fromJSON (now : Z) (gameData : JS.val) : option t :=
  let field k := JS.get k gameData in
  code ← as_str (field "code");
  host ← as_str (field "host");
  players ← as_arr (or_else (field "players") (JS.Arr [])) ≫= mapM as_str;
  deck ← as_arr (or_else (field "deck") (JS.Arr [])) ≫= mapM Card.fromJSON;
  history ← as_arr (or_else (field "history") (JS.Arr []));
  rules ← as_obj (or_else (field "rules") (JS.Obj _getDefaultRules));
  status ← as_str (or_else (field "status") (JS.Str "waiting")) ≫= status_of_str;
  currentTurn ← as_num (or_else (field "currentTurn") (JS.Num 0));
  createdAt ← (if JS.truthy (field "createdAt") then new_Date (field "createdAt")
               else Some now);
  startedAt ← date_field (field "startedAt");
  endedAt ← date_field (field "endedAt");
  savedCards ← as_obj (or_else (field "savedCards") (JS.Obj [])) ≫= mapM savedCards_entry;
  kingsCount ← as_num (or_else (field "kingsCount") (JS.Num 0));
  cupContent ← as_arr (or_else (field "cupContent") (JS.Arr []));
  venganzaCards ← as_arr (or_else (field "venganzaCards") (JS.Arr []));
  Some (mk code host players deck history rules status currentTurn createdAt
           startedAt endedAt savedCards kingsCount cupContent venganzaCards).

(** *** The remaining methods of [Game] *)

Definition set_rules (v : list (string * JS.val)) (g : t) : t :=
  mk (code g) (host g) (players g) (deck g) (history g) v (status g)
     (currentTurn g) (createdAt g) (startedAt g) (endedAt g) (savedCards g)
     (kingsCount g) (cupContent g) (venganzaCards g).

(** [{ ...this.rules, ...newRules }]: the keys of [this.rules] keep their
    place, those only in [newRules] follow in the order of [newRules]. *)
Definition updateRules (newRules : list (string * JS.val)) (g : t) : t :=
  set_rules
    (fold_left (fun acc kv => JS.set_field (fst kv) (snd kv) acc) newRules (rules g)) g.

(** [[l[i], l[j]] = [l[j], l[i]]] for two positions of the array. *)
Definition swap {A} (i j : nat) (l : list A) : list A :=
  match l !! i, l !! j with
  | Some x, Some y => <[j:=x]> (<[i:=y]> l)
  | _, _ => l
  end.

(** [_shuffleDeck]: for [i] from [length - 1] down to 1, swap positions [i]
    and [j = Math.floor(Math.random() * (i + 1))].  [pick i] is the [j]
    drawn at step [i], a number from 0 to [i]. *)
Fixpoint shuffle_from {A} (i : nat) (pick : nat -> nat) (l : list A) : list A :=
  match i with
  | O => l
  | S k => shuffle_from k pick (swap (S k) (pick (S k)) l)
  end.

Definition _shuffleDeck {A} (pick : nat -> nat) (deck : list A) : list A :=
  shuffle_from (length deck - 1) pick deck.

Definition _createDeck (pick : nat -> nat) : list Card.t :=
  _shuffleDeck pick _createDeck_ordered.

(** [card.id === cardId] on a saved card object. *)
Definition card_id_is (cardId : string) (card : JS.val) : bool :=
  match JS.get "id" card with
  | JS.Str s => String.eqb s cardId
  | _ => false
  end.

Definition activationEntry (card : Card.t) (playerId : string) (now : Z)
    (rule : JS.val) : JS.val :=
  JS.Obj [ ("card", Card.toJSON card); ("playerId", JS.Str playerId);
           ("timestamp", JS.Date now); ("rule", rule); ("isActivated", JS.Bool true) ].

(** [activateCard]: the first saved card of the player with that id leaves
    the saved cards and enters the history.  The outer [None] is for a stored
    object that is not a card of the deck ([Card.fromJSON] has no image for
    it). *)
Definition activateCard (playerId cardId : string) (now : Z) (g : t)
    : option (result (t * Card.t)) :=
  if negb (JS.includes playerId (players g)) then Some (Throw PlayerNotInGame)
  else
    match JS.lookup_field playerId (savedCards g) with
    | None => Some (Throw TypeError)
    | Some cards =>
        match JS.findIndex (card_id_is cardId) cards with
        | None => Some (Throw CardNotSaved)
        | Some cardIndex =>
            match cards !! cardIndex ≫= Card.fromJSON with
            | None => None
            | Some card =>
                let g1 :=
                  set_savedCards
                    (JS.set_field playerId (JS.splice1 cardIndex cards) (savedCards g)) g in
                let g2 :=
                  set_history
                    (history g1 ++
                     [activationEntry card playerId now (ruleFor g1 (Card.rank card))]) g1 in
                Some (Ok (g2, card))
            end
        end
    end.

(** [activateBrincoCard] and [activateMoveCard] call [activateCard] first and
    check the rank afterwards: when they throw for a card of the wrong rank,
    the game has already been changed. *)
Inductive Activation :=
| Activated (g : t) (returned : JS.val)   (* returns; [this] is now [g] *)
| Refused (e : Error)                     (* [activateCard] threw; [this] unchanged *)
| WrongKind (g : t) (message : string).   (* threw after [activateCard]; [this] is now [g] *)

Definition activationResult (card : Card.t) (message playerId : string) (now : Z)
    : JS.val :=
  JS.Obj [ ("card", Card.toJSON card); ("message", JS.Str message);
           ("playerId", JS.Str playerId); ("timestamp", JS.Date now) ].

Definition activateBrincoCard (playerId cardId : string) (now : Z) (g : t)
    : option Activation :=
  r ← activateCard playerId cardId now g;
  Some match r with
       | Throw e => Refused e
       | Ok (g', card) =>
           if negb (Card.rank_eqb (Card.rank card) Card.R5)
           then WrongKind g' "Esta carta no es una carta de brinco"
           else Activated g'
                  (activationResult card
                     "Carta de brinco activada: 1, 2, 3 ¡AL BRINCO! El último que salte toma."
                     playerId now)
       end.

Definition activateMoveCard (playerId cardId : string) (now : Z) (g : t)
    : option Activation :=
  r ← activateCard playerId cardId now g;
  Some match r with
       | Throw e => Refused e
       | Ok (g', card) =>
           if negb (Card.rank_eqb (Card.rank card) Card.R9)
           then WrongKind g' "Esta carta no es una carta de movimiento"
           else Activated g'
                  (activationResult card
                     "Carta de movimiento activada: 1, 2, 3 ¡AL QUE SE MUEVE! El que se mueva toma."
                     playerId now)
       end.

End Game.

(* ------------------------------------------------------------------ *)
(** ** GameService.js *)

Module GameService.

(** [validateCardDraw]: the [reason] of a refusal, [None] when [canDraw]. *)
Definition deckEmptyReason : string := "No hay más cartas en la baraja".

Definition validateCardDraw (g : Game.t) (playerId : string) : option string :=
  if negb (Game.status_eqb (Game.status g) Game.started)
  then Some "La partida no ha comenzado"
  else if negb (Game.isCurrentPlayer g playerId)
  then Some "No es el turno de este jugador"
  else if JS.len (Game.deck g) =? 0
  then Some deckEmptyReason
  else None.

Definition getNextPlayer (g : Game.t) : option string :=
  JS.index (Game.players g)
    (JS.rem (Game.currentTurn g + 1) (JS.len (Game.players g))).

Definition getPreviousPlayer (g : Game.t) : option string :=
  JS.index (Game.players g)
    (JS.rem (Game.currentTurn g - 1 + JS.len (Game.players g)) (JS.len (Game.players g))).

Definition getLeftPlayer (g : Game.t) : option string := getNextPlayer g.
Definition getRightPlayer (g : Game.t) : option string := getPreviousPlayer g.

Definition getKingsCupMessage (kingsCount : Z) : string :=
  match kingsCount with
  | 1 => "Primera K - Llena 1/4 del vaso con licor"
  | 2 => "Segunda K - Añade más al vaso"
  | 3 => "Tercera K - Completa más el vaso"
  | 4 => "Cuarta K - Llena completamente el vaso y tómatelo todo"
  | _ => "Copa del Rey completada"
  end.

(** The object [applyCardRule] returns.  [targetPlayer = None] stands for
    [null] (no target) and for [undefined] (a position outside the list). *)
Record RuleResult := mkRule {
  action : string;
  targetPlayer : option string;
  message : string;
  requiresUserInput : bool;
  options : list string
}.

Definition applyCardRule (g : Game.t) (card : Card.t) (playerId : string) : RuleResult :=
  match Card.rank card with
  | Card.RA => mkRule "venganza_saved" None
      "Carta de venganza guardada para el final del juego" false []
  | Card.R2 => mkRule "drink_self" (Some playerId)
      "A vos - Toma la persona que sacó la carta" false []
  | Card.R3 => mkRule "yo_nunca_nunca" None
      "Yo nunca nunca - Alzen 3 dedos y empiecen el juego" true []
  | Card.R4 => mkRule "choose_rule" None "Elige la regla para el 4" true
      ["Al más gato (ojos más claros)"; "Mi barquito"]
  | Card.R5 => mkRule "card_saved" None
      "Carta Al brinco guardada - Úsala cuando quieras" false []
  | Card.R6 => mkRule "drink_first_seen" None
      "Al que vez - La primera persona a la que veas tiene que tomar" true []
  | Card.R7 => mkRule "siete_pum" None
      "7 pum - Empiecen a contar, los números con 7 se dicen PUM" true []
  | Card.R8 => mkRule "choose_rule" None "Elige la regla para el 8" true
      ["Al más joven"; "Colores (rojos: más pequeño, negros: más grande)"]
  | Card.R9 => mkRule "card_saved" None
      "Carta Al que se mueve guardada - Úsala cuando quieras" false []
  | Card.R10 => mkRule "choose_rule" None "Elige la regla para el 10" true
      ["Al juez (quien está sirviendo)"; "Historia"]
  | Card.RJ => mkRule "drink_left" (getLeftPlayer g)
      "El jugador de la izquierda toma" false []
  | Card.RQ => mkRule "drink_right" (getRightPlayer g)
      "El jugador de la derecha toma" false []
  | Card.RK => mkRule "kings_cup" None (getKingsCupMessage (Game.kingsCount g)) false []
  end.

Definition shouldGameEnd (g : Game.t) : bool :=
  if JS.len (Game.deck g) =? 0 then true
  else if JS.len (Game.players g) <=? 1 then true
  else false.

(** [validateGameState]: the list of issues; the state is valid when it is
    empty. *)
Definition validateGameState (g : Game.t) : list string :=
  (if JS.len (Game.players g) =? 0 then ["No hay jugadores en la partida"] else []) ++
  (if negb (JS.includes (Game.host g) (Game.players g))
   then ["El host no está en la lista de jugadores"] else []) ++
  (if Game.status_eqb (Game.status g) Game.started
      && (JS.len (Game.players g) <=? Game.currentTurn g)
   then ["El turno actual es inválido"] else []) ++
  (if Game.status_eqb (Game.status g) Game.started && (JS.len (Game.deck g) =? 0)
      && negb (Game.status_eqb (Game.status g) Game.ended)
   then ["La baraja está vacía pero el juego no ha terminado"] else []) ++
  concat ((fun '(playerId, cards) =>
             (if negb (JS.includes playerId (Game.players g))
              then ["Jugador " +:+ playerId +:+
                    " tiene cartas guardadas pero no está en la partida"] else []) ++
             (if 3 <? JS.len cards
              then ["Jugador " +:+ playerId +:+ " tiene más de 3 cartas guardadas"]
              else [])) <$> Game.savedCards g).

(** *** The remaining validations and the game codes *)

(** [validatePlayerJoin] and [validateGameStart]: the [reason] of a refusal,
    [None] when [canJoin] (resp. [canStart]). *)
Definition validatePlayerJoin (g : Game.t) (playerId : string) : option string :=
  if negb (Game.status_eqb (Game.status g) Game.waiting)
  then Some "La partida ya ha comenzado o ha terminado"
  else if JS.includes playerId (Game.players g)
  then Some "El jugador ya está en la partida"
  else if 8 <=? JS.len (Game.players g)
  then Some "La partida está completa (máximo 8 jugadores)"
  else None.

Definition validateGameStart (g : Game.t) : option string :=
  if negb (Game.status_eqb (Game.status g) Game.waiting)
  then Some "La partida ya ha comenzado o ha terminado"
  else if JS.len (Game.players g) <? 2
  then Some "Se necesitan al menos 2 jugadores para iniciar"
  else None.

Definition characters : string := "ABCDEFGHIJKLMNOPQRSTUVWXYZ0123456789".

(** [generateGameCode(length)]: [pick i] is
    [Math.floor(Math.random() * characters.length)] at iteration [i]. *)
Definition generateGameCode (length : nat) (pick : nat -> nat) : string :=
  fold_left (fun code i => code +:+ JS.charAt (pick i) characters) (seq 0 length) "".

End GameService.

(* ------------------------------------------------------------------ *)
(** ** GameValidationService.js: [validatePlayerId] and [validateCardDraw] *)

Module GameValidationService.

Inductive ErrorCode :=
| INVALID_PLAYER_ID | GAME_NOT_STARTED | PLAYER_NOT_FOUND | NOT_PLAYER_TURN | DECK_EMPTY.

Record Validation := mkValidation {
  isValid : bool;
  errorCode : option ErrorCode;
  message : option string
}.

Definition invalid (c : ErrorCode) (m : string) : Validation :=
  mkValidation false (Some c) (Some m).
Definition valid : Validation := mkValidation true None None.

Section WithTrim.

(** [String.prototype.trim], of the JavaScript runtime.  Lengths count the
    characters of the string as the model holds them. *)
Variable trim : string -> string.

Definition validatePlayerId (playerId : string) : Validation :=
  if String.eqb playerId "" then invalid INVALID_PLAYER_ID "ID de jugador es requerido"
  else if (String.length (trim playerId) =? 0)%nat
  then invalid INVALID_PLAYER_ID "ID de jugador no puede estar vacío"
  else if (50 <? String.length playerId)%nat
  then invalid INVALID_PLAYER_ID "ID de jugador no puede tener más de 50 caracteres"
  else valid.

Definition validateCardDraw (g : Game.t) (playerId : string) : Validation :=
  let playerValidation := validatePlayerId playerId in
  if negb (isValid playerValidation) then playerValidation
  else if negb (Game.status_eqb (Game.status g) Game.started)
  then invalid GAME_NOT_STARTED "La partida no ha comenzado"
  else if negb (JS.includes playerId (Game.players g))
  then invalid PLAYER_NOT_FOUND "El jugador no está en la partida"
  else if negb (Game.isCurrentPlayer g playerId)
  then invalid NOT_PLAYER_TURN "No es el turno del jugador"
  else if JS.len (Game.deck g) =? 0
  then invalid DECK_EMPTY "No hay cartas en el mazo"
  else valid.

End WithTrim.

(** *** The validators of codes, cards and activations

    Their results carry the error code as the string [ERROR_CODES] holds. *)

Record Report := mkReport {
  r_isValid : bool;
  r_errorCode : option string;
  r_message : option string
}.

Definition bad (c m : string) : Report := mkReport false (Some c) (Some m).
Definition good : Report := mkReport true None None.

Definition code_name (c : ErrorCode) : string :=
  match c with
  | INVALID_PLAYER_ID => "INVALID_PLAYER_ID"
  | GAME_NOT_STARTED => "GAME_NOT_STARTED"
  | PLAYER_NOT_FOUND => "PLAYER_NOT_FOUND"
  | NOT_PLAYER_TURN => "NOT_PLAYER_TURN"
  | DECK_EMPTY => "DECK_EMPTY"
  end.

Definition report (v : Validation) : Report :=
  mkReport (isValid v) (code_name <$> errorCode v) (message v).

(** A character of the class [[A-Z0-9]]. *)
Definition code_char (a : Ascii.ascii) : bool :=
  let n := Ascii.nat_of_ascii a in
  ((65 <=? n) && (n <=? 90) || (48 <=? n) && (n <=? 57))%nat.

(** [/^[A-Z0-9]+$/.test(s)] *)
Definition code_pattern (s : string) : bool :=
  negb (String.eqb s "") && forallb code_char (String.list_ascii_of_string s).

Definition validateGameCode (gameCode : string) : Report :=
  if String.eqb gameCode ""
  then bad "INVALID_GAME_CODE" "Código de partida es requerido"
  else if ((String.length gameCode <? 4) || (10 <? String.length gameCode))%nat
  then bad "INVALID_GAME_CODE" "Código de partida debe tener entre 4 y 10 caracteres"
  else if negb (code_pattern gameCode)
  then bad "INVALID_GAME_CODE" "Código de partida solo puede contener letras y números"
  else good.

(** [validSuits.includes(x)] and [validRanks.includes(x)] for any value [x]:
    only a string can be found in an array of strings. *)
Definition includes_val (x : JS.val) (l : list string) : bool :=
  match x with JS.Str s => JS.includes s l | _ => false end.

Definition validateCard (card : JS.val) : Report :=
  if negb (JS.truthy card) then bad "INVALID_CARD" "Carta es requerida"
  else if negb (JS.truthy (JS.get "suit" card)) || negb (JS.truthy (JS.get "rank" card))
  then bad "INVALID_CARD" "Carta debe tener palo y valor"
  else if negb (includes_val (JS.get "suit" card) (Card.suit_str <$> Card.all_suits))
  then bad "INVALID_CARD" "Palo de carta inválido"
  else if negb (includes_val (JS.get "rank" card) (Card.rank_str <$> Card.all_ranks))
  then bad "INVALID_CARD" "Valor de carta inválido"
  else good.

Section WithTrimMore.

Variable trim : string -> string.

Definition validatePlayerJoin (g : Game.t) (playerId : string) : Report :=
  let playerValidation := validatePlayerId trim playerId in
  if negb (isValid playerValidation) then report playerValidation
  else if negb (Game.status_eqb (Game.status g) Game.waiting)
  then bad "INVALID_GAME_STATE" "La partida ya ha comenzado o terminado"
  else if JS.includes playerId (Game.players g)
  then bad "PLAYER_ALREADY_EXISTS" "El jugador ya está en la partida"
  else if 8 <=? JS.len (Game.players g)
  then bad "GAME_FULL" "La partida está llena"
  else good.

(** [targetPlayerId] is [None] for [null]. *)
Definition validateCardActivation (g : Game.t) (playerId cardType : string)
    (targetPlayerId : option string) : Report :=
  let playerValidation := validatePlayerId trim playerId in
  if negb (isValid playerValidation) then report playerValidation
  else if negb (Game.status_eqb (Game.status g) Game.started)
  then bad "GAME_NOT_STARTED" "La partida no ha comenzado"
  else if negb (JS.includes playerId (Game.players g))
  then bad "PLAYER_NOT_FOUND" "El jugador no está en la partida"
  else if negb (JS.includes cardType ["brinco"; "movement"; "venganza"])
  then bad "INVALID_CARD_TYPE" "Tipo de carta inválido"
  else if String.eqb cardType "venganza" then
    match targetPlayerId with
    | None => bad "INVALID_TARGET_PLAYER" "La venganza requiere un jugador objetivo"
    | Some target =>
        if String.eqb target ""
        then bad "INVALID_TARGET_PLAYER" "La venganza requiere un jugador objetivo"
        else if negb (JS.includes target (Game.players g))
        then bad "INVALID_TARGET_PLAYER" "El jugador objetivo no está en la partida"
        else if JS.len (List.filter (Game.playerId_is playerId) (Game.venganzaCards g)) =? 0
        then bad "NO_VENGANZA_AVAILABLE" "No tienes venganzas disponibles"
        else good
    end
  else good.

End WithTrimMore.

End GameValidationService.

(* ------------------------------------------------------------------ *)
(** ** The use case [DrawCard] (application/use-cases)

    [found] is what [gameRepository.findByCode(gameCode)] returned.  A
    successful run hands the game to [gameRepository.save]; [Success] carries
    that game together with the response data.  A failure (any thrown error is
    caught and reported with code [DRAW_CARD_ERROR]) saves nothing.  The
    response field [game], a summary projected from the saved game, is left
    out of [Data]. *)

Module DrawCard.

Inductive ExtraInfo :=
| NoInfo
| VenganzaInfo (message : string) (totalVenganzas : Z)
| KingsCupInfo (kingsCupStatus : JS.val)
| SavedCardInfo (message : string) (savedCards : list JS.val).

Record Data := mkData {
  card : JS.val;
  rule : GameService.RuleResult;
  nextPlayer : option string;
  cardsRemaining : Z;
  isGameOver : bool;
  info : ExtraInfo
}.

Inductive Response :=
| Success (saved : Game.t) (data : Data)
| Failure (message : string).

Definition extraInfo (updatedGame : Game.t) (drawn : Card.t) (playerId : string) : ExtraInfo :=
  match Card.rank drawn with
  | Card.RA =>
      VenganzaInfo "Carta de venganza guardada para el final del juego"
        (JS.len (Game.venganzaCards updatedGame))
  | Card.RK => KingsCupInfo (Game.getKingsCupStatus updatedGame)
  | Card.R5 | Card.R9 =>
      SavedCardInfo
        ("Carta " +:+ Card.rank_str (Card.rank drawn) +:+ " guardada para uso posterior")
        (default [] (JS.lookup_field playerId (Game.savedCards updatedGame)))
  | _ => NoInfo
  end.

Definition execute (found : option Game.t) (gameCode playerId : string) (now : Z)
    : Response :=
  if String.eqb gameCode "" then Failure "El código de partida es requerido"
  else if String.eqb playerId "" then Failure "El ID del jugador es requerido"
  else
    match found with
    | None => Failure "Partida no encontrada"
    | Some game =>
        match GameService.validateCardDraw game playerId with
        | Some reason => Failure reason
        | None =>
            match Game.drawCard playerId now game with
            | Throw e => Failure (error_message e)
            | Ok (game1, drawnCard) =>
                let game2 :=
                  if GameService.shouldGameEnd game1 then Game.endGame now game1
                  else game1 in
                match drawnCard with
                | None => Failure (error_message TypeError)   (* [card.rank] of [null] *)
                | Some c =>
                    let ruleResult := GameService.applyCardRule game2 c playerId in
                    Success game2
                      (mkData (Card.toJSON c) ruleResult (Game.getCurrentPlayer game2)
                         (JS.len (Game.deck game2)) (Game.isGameOver game2)
                         (extraInfo game2 c playerId))
                end
            end
        end
    end.

(** The game a response leaves in the repository: the saved one, or the one
    found when nothing was saved. *)
Definition stored (found : Game.t) (r : Response) : Game.t :=
  match r with
  | Success saved _ => saved
  | Failure _ => found
  end.

End DrawCard.

(* ------------------------------------------------------------------ *)
(** ** The use cases [StartGame], [EndGame], [ActivateCard] and [UpdateRules]

    As for [DrawCard], [found] is what [gameRepository.findByCode] returned,
    [Saved] carries the game handed to [gameRepository.save], and a failure
    (the caught error) saves nothing.  The response data, projected from the
    saved game, is left out but for what an activation returns. *)

Module UseCase.

Inductive Response :=
| Saved (saved : Game.t)
| Failure (message : string).

Definition stored (found : Game.t) (r : Response) : Game.t :=
  match r with
  | Saved saved => saved
  | Failure _ => found
  end.

End UseCase.

Module StartGame.

Definition execute (found : option Game.t) (gameCode playerId : string) (now : Z)
    : UseCase.Response :=
  if String.eqb gameCode "" then UseCase.Failure "El código de partida es requerido"
  else if String.eqb playerId "" then UseCase.Failure "El ID del jugador es requerido"
  else
    match found with
    | None => UseCase.Failure "Partida no encontrada"
    | Some game =>
        if negb (String.eqb (Game.host game) playerId)
        then UseCase.Failure "Solo el host puede iniciar la partida"
        else
          match GameService.validateGameStart game with
          | Some reason => UseCase.Failure reason
          | None =>
              match Game.startGame now game with
              | Throw e => UseCase.Failure (error_message e)
              | Ok game' => UseCase.Saved game'
              end
          end
    end.

End StartGame.

Module EndGame.

Definition execute (found : option Game.t) (gameCode playerId : string) (now : Z)
    : UseCase.Response :=
  if String.eqb gameCode "" then UseCase.Failure "El código de partida es requerido"
  else if String.eqb playerId "" then UseCase.Failure "El ID del jugador es requerido"
  else
    match found with
    | None => UseCase.Failure "Partida no encontrada"
    | Some game =>
        if negb (String.eqb (Game.host game) playerId)
        then UseCase.Failure "Solo el host puede terminar la partida"
        else if Game.status_eqb (Game.status game) Game.ended
        then UseCase.Failure "La partida ya ha terminado"
        else UseCase.Saved (Game.endGame now game)
    end.

Definition autoEnd (found : option Game.t) (now : Z) : UseCase.Response :=
  match found with
  | None => UseCase.Failure "Partida no encontrada"
  | Some game =>
      if negb (GameService.shouldGameEnd game)
      then UseCase.Failure "La partida no debe terminar automáticamente"
      else UseCase.Saved (Game.endGame now game)
  end.

End EndGame.

Module ActivateCard.

(** [Activated saved card message]: the saved game, and the card and the
    message of what the activation returned. *)
Inductive Response :=
| Activated (saved : Game.t) (card : JS.val) (message : string)
| Failure (message : string).

Definition of_activation (a : Game.Activation) : Response :=
  match a with
  | Game.Activated g' r =>
      Activated g' (JS.get "card" r)
        (match JS.get "message" r with JS.Str m => m | _ => "" end)
  | Game.Refused e => Failure (error_message e)
  | Game.WrongKind _ m => Failure m
  end.

(** [None] as for [Game.activateCard]: a stored object that is no card of
    the deck. *)
Definition execute (found : option Game.t) (gameCode playerId cardId cardType : string)
    (targetPlayerId : option string) (now : Z) : option Response :=
  if String.eqb gameCode "" then Some (Failure "El código de partida es requerido")
  else if String.eqb playerId "" then Some (Failure "El ID del jugador es requerido")
  else if String.eqb cardId "" then Some (Failure "El ID de la carta es requerido")
  else if negb (JS.includes cardType ["brinco"; "movement"; "venganza"])
  then Some (Failure "Tipo de carta inválido")
  else
    match found with
    | None => Some (Failure "Partida no encontrada")
    | Some game =>
        if negb (JS.includes playerId (Game.players game))
        then Some (Failure "El jugador no está en la partida")
        else if String.eqb cardType "brinco" then
          if negb (Game.status_eqb (Game.status game) Game.started)
          then Some (Failure "Solo se pueden activar cartas durante la partida")
          else of_activation <$> Game.activateBrincoCard playerId cardId now game
        else if String.eqb cardType "movement" then
          if negb (Game.status_eqb (Game.status game) Game.started)
          then Some (Failure "Solo se pueden activar cartas durante la partida")
          else of_activation <$> Game.activateMoveCard playerId cardId now game
        else
          if negb (Game.status_eqb (Game.status game) Game.ended)
          then Some (Failure "La venganza solo se puede usar al final del juego")
          else
            match targetPlayerId with
            | None => Some (Failure "Se requiere un jugador objetivo para la venganza")
            | Some target =>
                if String.eqb target ""
                then Some (Failure "Se requiere un jugador objetivo para la venganza")
                else
                  match Game.useVenganza playerId target now game with
                  | Throw e => Some (Failure (error_message e))
                  | Ok (game', r) =>
                      Some (Activated game' (JS.get "card" r)
                              (playerId +:+ " usa venganza contra " +:+ target))
                  end
            end
    end.

Definition stored (found : Game.t) (r : Response) : Game.t :=
  match r with
  | Activated saved _ _ => saved
  | Failure _ => found
  end.

End ActivateCard.

Module UpdateRules.

Definition validRanks : list string := Card.rank_str <$> Card.all_ranks.

(** [invalidRanks.join(', ')] *)
Fixpoint join (l : list string) : string :=
  match l with
  | [] => ""
  | [x] => x
  | x :: r => x +:+ ", " +:+ join r
  end.

(** [newRules = None] stands for a missing or non-object argument. *)
Definition execute (found : option Game.t) (gameCode playerId : string)
    (newRules : option (list (string * JS.val))) : UseCase.Response :=
  if String.eqb gameCode "" then UseCase.Failure "El código de partida es requerido"
  else if String.eqb playerId "" then UseCase.Failure "El ID del jugador es requerido"
  else
    match newRules with
    | None => UseCase.Failure "Las nuevas reglas son requeridas"
    | Some newRules =>
        match found with
        | None => UseCase.Failure "Partida no encontrada"
        | Some game =>
            if negb (String.eqb (Game.host game) playerId)
            then UseCase.Failure "Solo el host puede actualizar las reglas"
            else if negb (Game.status_eqb (Game.status game) Game.waiting)
            then UseCase.Failure
                   "Solo se pueden actualizar las reglas antes de iniciar la partida"
            else
              let invalidRanks :=
                List.filter (fun rank => negb (JS.includes rank validRanks))
                  (fst <$> newRules) in
              if (0 <? length invalidRanks)%nat
              then UseCase.Failure ("Cartas inválidas: " +:+ join invalidRanks)
              else UseCase.Saved (Game.updateRules newRules game)
        end
    end.

Definition resetRules (found : option Game.t) (playerId : string) : UseCase.Response :=
  match found with
  | None => UseCase.Failure "Partida no encontrada"
  | Some game =>
      if negb (String.eqb (Game.host game) playerId)
      then UseCase.Failure "Solo el host puede restablecer las reglas"
      else if negb (Game.status_eqb (Game.status game) Game.waiting)
      then UseCase.Failure
             "Solo se pueden restablecer las reglas antes de iniciar la partida"
      else UseCase.Saved (Game.set_rules Game._getDefaultRules game)
  end.

End UpdateRules.

(* ------------------------------------------------------------------ *)
(** ** Concrete tables used to exercise the commands *)

Module Examples.

Definition code : string := "ABC123".

Definition card_eqb (a b : Card.t) : bool := String.eqb (Card.id a) (Card.id b).

(** A full deck whose next draws are [top], first to last: the ordered deck
    without those cards, then [top] reversed at the tail. *)
Definition stack (top : list Card.t) : list Card.t :=
  List.filter (fun c => negb (existsb (card_eqb c) top)) Game._createDeck_ordered
  ++ rev top.

(** [host] creates the game with the deck [shuffled], [others] join in turn,
    and the game is started at time 1. *)
Definition table (host : string) (others : list string) (shuffled : list Card.t)
    : result Game.t :=
  match
    fold_left (fun r p => match r with Ok g => Game.addPlayer p g | Throw e => Throw e end)
      others (Ok (Game.new code host shuffled 0))
  with
  | Ok g => Game.startGame 1 g
  | Throw e => Throw e
  end.

(** The current player draws through the use case, [n] times in a row,
    at times [now], [now + 1], ... *)
Fixpoint draws (n : nat) (now : Z) (g : Game.t) : option Game.t :=
  match n with
  | O => Some g
  | S k =>
      match Game.getCurrentPlayer g with
      | None => None
      | Some p =>
          match DrawCard.execute (Some g) code p now with
          | DrawCard.Success saved _ => draws k (now + 1) saved
          | DrawCard.Failure _ => None
          end
      end
  end.

(** The same on the entity alone, calling [Game.drawCard] directly. *)
Fixpoint entity_draws (n : nat) (now : Z) (g : Game.t) : option Game.t :=
  match n with
  | O => Some g
  | S k =>
      match Game.getCurrentPlayer g with
      | None => None
      | Some p =>
          match Game.drawCard p now g with
          | Ok (g', _) => entity_draws k (now + 1) g'
          | Throw _ => None
          end
      end
  end.

(** The game a run produced (an empty game stands for a run that failed;
    [example_tables] checks that no table below is that game). *)
Definition the (r : result Game.t) : Game.t :=
  match r with Ok g => g | Throw _ => Game.new "" "" [] 0 end.
Definition after (o : option Game.t) : Game.t := default (Game.new "" "" [] 0) o.

Definition card (r : Card.Rank) (s : Card.Suit) : Card.t := Card.mk s r.

(** "p" and "q"; "p" is about to draw the 5 of hearts, then "q" the 9 of spades. *)
Definition save_table : Game.t :=
  the (table "p" ["q"] (stack [card Card.R5 Card.hearts; card Card.R9 Card.spades])).

(** "a", "b", "c"; "a" is about to draw the jack of hearts. *)
Definition jack_table : Game.t :=
  the (table "a" ["b"; "c"] (stack [card Card.RJ Card.hearts])).

(** "a", "b", "c"; "a" is about to draw the queen of spades. *)
Definition queen_table : Game.t :=
  the (table "a" ["b"; "c"] (stack [card Card.RQ Card.spades])).

(** "a", "b", "c"; "a" is about to draw the 7 of hearts, "b" then the 2 of clubs. *)
Definition seven_table : Game.t :=
  the (table "a" ["b"; "c"] (stack [card Card.R7 Card.hearts; card Card.R2 Card.clubs])).

(** "a" and "b" after three kings; "b" is about to draw the fourth. *)
Definition kings_table : Game.t :=
  after (draws 3 2
           (the (table "a" ["b"]
                   (stack [card Card.RK Card.hearts; card Card.RK Card.diamonds;
                           card Card.RK Card.clubs; card Card.RK Card.spades])))).

(** "p" and "q" after "p" drew the ace of spades, "q" the 2 of clubs and "p"
    the ace of hearts; and the same game once the host has ended it. *)
Definition ace_table : Game.t :=
  after (draws 3 2
           (the (table "p" ["q"]
                   (stack [card Card.RA Card.spades; card Card.R2 Card.clubs;
                           card Card.RA Card.hearts])))).

Definition venganza_table : Game.t := Game.endGame 9 ace_table.

(** "p" holds three saved cards. *)
Definition full_hand_table : Game.t :=
  the (Game.saveCard "p" (card Card.R5 Card.diamonds)
         (the (Game.saveCard "p" (card Card.R9 Card.spades)
                 (the (Game.saveCard "p" (card Card.R5 Card.hearts) save_table))))).

(** A game just created: the host "h" alone. *)
Definition lobby : Game.t := Game.new code "h" (stack []) 0.

(** "a" and "b" after the 52 cards were drawn by calls of [Game.drawCard]. *)
Definition exhausted_table : Game.t :=
  after (entity_draws 52 2 (the (table "a" ["b"] (stack [])))).

End Examples.

(* ------------------------------------------------------------------ *)
(** ** States after a command, spelled out field by field *)

Module Post.

(** What [Game.drawCard] leaves when [playerId] draws [c] from a deck
    [rest ++ [c]] (see [drawCard_draws]). *)
Definition drawn (g : Game.t) (playerId : string) (now : Z) (rest : list Card.t)
    (c : Card.t) : Game.t :=
  let isK := Card.rank_eqb (Card.rank c) Card.RK in
  let isA := Card.rank_eqb (Card.rank c) Card.RA in
  let kings := if isK then Game.kingsCount g + 1 else Game.kingsCount g in
  {| Game.code := Game.code g;
     Game.host := Game.host g;
     Game.players := Game.players g;
     Game.deck := rest;
     Game.history :=
       Game.history g ++
       [Game.historyEntry c playerId now (Game.ruleFor g (Card.rank c))
          (if isK then JS.Num kings else JS.Undefined)];
     Game.rules := Game.rules g;
     Game.status := Game.started;
     Game.currentTurn := JS.rem (Game.currentTurn g + 1) (JS.len (Game.players g));
     Game.createdAt := Game.createdAt g;
     Game.startedAt := Game.startedAt g;
     Game.endedAt := Game.endedAt g;
     Game.savedCards := Game.savedCards g;
     Game.kingsCount := kings;
     Game.cupContent :=
       if isK then Game.cupContent g ++ [Game.cupEntry playerId kings now]
       else Game.cupContent g;
     Game.venganzaCards :=
       if isA then Game.venganzaCards g ++ [Game.venganzaEntry playerId c now]
       else Game.venganzaCards g |}.

(** What the use case hands to the repository after that draw. *)
Definition saved_after_draw (g : Game.t) (playerId : string) (now : Z)
    (rest : list Card.t) (c : Card.t) : Game.t :=
  let g1 := drawn g playerId now rest c in
  if GameService.shouldGameEnd g1 then Game.endGame now g1 else g1.

(** What [Game.removePlayer] leaves when the player at index [i] leaves
    (see [removePlayer_leaves]). *)
Definition left (g : Game.t) (playerId : string) (i : nat) : Game.t :=
  let players' := JS.splice1 i (Game.players g) in
  {| Game.code := Game.code g;
     Game.host :=
       if String.eqb (Game.host g) playerId && (0 <? JS.len players')
       then default (Game.host g) (JS.index players' 0)
       else Game.host g;
     Game.players := players';
     Game.deck := Game.deck g;
     Game.history := Game.history g;
     Game.rules := Game.rules g;
     Game.status := Game.status g;
     Game.currentTurn :=
       if JS.len players' <=? Game.currentTurn g then 0 else Game.currentTurn g;
     Game.createdAt := Game.createdAt g;
     Game.startedAt := Game.startedAt g;
     Game.endedAt := Game.endedAt g;
     Game.savedCards := JS.delete_field playerId (Game.savedCards g);
     Game.kingsCount := Game.kingsCount g;
     Game.cupContent := Game.cupContent g;
     Game.venganzaCards := Game.venganzaCards g |}.

End Post.

(* ------------------------------------------------------------------ *)
(** ** The turn rule and the venganza count as the specification words them

    [direction] starts at +1 and is toggled by each rank-7 draw; after a
    draw the turn index becomes [(turnIndex + direction + n) mod n]. *)

Module Spec.

Definition is_seven (h : JS.val) : bool :=
  match JS.get "rank" (JS.get "card" h) with
  | JS.Str r => String.eqb r "7"
  | _ => false
  end.

(** Rank-7 cards drawn so far (a 7 enters the history only by a draw). *)
Definition sevens_drawn (g : Game.t) : nat :=
  length (List.filter is_seven (Game.history g)).

Definition direction (sevens : nat) : Z := if Nat.even sevens then 1 else -1.

(** The two sides of the venganza invariant: aces drawn, and venganza
    consumption events, as the history records them. *)
Definition is_consume (h : JS.val) : bool :=
  match JS.get "isVenganza" h with JS.Bool b => b | _ => false end.

Definition is_ace_draw (h : JS.val) : bool :=
  match JS.get "rank" (JS.get "card" h) with
  | JS.Str r => String.eqb r "A" && negb (is_consume h)
  | _ => false
  end.

Definition aces_drawn (g : Game.t) : nat :=
  length (List.filter is_ace_draw (Game.history g)).

Definition venganzas_consumed (g : Game.t) : nat :=
  length (List.filter is_consume (Game.history g)).

Definition turn_after (turnIndex direction n : Z) : Z :=
  (turnIndex + direction + n) mod n.

End Spec.

(* ------------------------------------------------------------------ *)
(** ** The game as a state machine

    One step is one call of a method of [Game] that returns normally (the
    use cases are made of such calls); a run is any sequence of steps. *)

Module Machine.

Inductive step (g : Game.t) : Game.t -> Prop :=
| step_addPlayer (p : string) (g' : Game.t) :
    Game.addPlayer p g = Ok g' -> step g g'
| step_removePlayer (p : string) (b : bool) (g' : Game.t) :
    Game.removePlayer p g = (b, g') -> step g g'
| step_startGame (now : Z) (g' : Game.t) :
    Game.startGame now g = Ok g' -> step g g'
| step_drawCard (p : string) (now : Z) (g' : Game.t) (c : option Card.t) :
    Game.drawCard p now g = Ok (g', c) -> step g g'
| step_saveCard (p : string) (c : Card.t) (g' : Game.t) :
    Game.saveCard p c g = Ok g' -> step g g'
| step_activateCard (p cardId : string) (now : Z) (g' : Game.t) (c : Card.t) :
    Game.activateCard p cardId now g = Some (Ok (g', c)) -> step g g'
| step_useVenganza (p target : string) (now : Z) (g' : Game.t) (r : JS.val) :
    Game.useVenganza p target now g = Ok (g', r) -> step g g'
| step_updateRules (newRules : list (string * JS.val)) :
    step g (Game.updateRules newRules g)
| step_endGame (now : Z) :
    step g (Game.endGame now g).

Definition run : Game.t -> Game.t -> Prop := rtc step.

(** Kings still in the deck. *)
Definition kings_in (deck : list Card.t) : Z :=
  JS.len (List.filter (fun c => Card.rank_eqb (Card.rank c) Card.RK) deck).

(** [waiting], [started], [ended] in the order a game goes through them. *)
Definition stage (s : Game.Status) : nat :=
  match s with
  | Game.waiting => 0
  | Game.started => 1
  | Game.ended => 2
  end.

(** The saved-card checks of [GameService.validateGameState]: every key of
    [savedCards] is a player of the game and holds at most three cards. *)
Definition hands_ok (g : Game.t) : bool :=
  forallb (fun kv => JS.includes (fst kv) (Game.players g) && (JS.len (snd kv) <=? 3))
    (Game.savedCards g).

(** The turn index is a seat of the table, or 0 at an empty table. *)
Definition turn_ok (g : Game.t) : bool :=
  (0 <=? Game.currentTurn g) &&
  ((Game.currentTurn g <? JS.len (Game.players g)) || (Game.currentTurn g =? 0)).

Definition well_formed (g : Game.t) : Prop :=
  NoDup (Game.players g) /\ (length (Game.players g) <= 8)%nat /\
  hands_ok g = true /\ turn_ok g = true.

End Machine.

(* ------------------------------------------------------------------ *)
(** ** Basic facts about the JavaScript operations *)

Lemma status_eqb_eq (a b : Game.Status) : Game.status_eqb a b = true <-> a = b.
Proof. destruct a, b; cbv; split; congruence. Qed.

Lemma rank_eqb_eq (a b : Card.Rank) : Card.rank_eqb a b = true <-> a = b.
Proof. destruct a, b; cbv; split; congruence. Qed.

Lemma pop_snoc {A} (l : list A) (x : A) : JS.pop (l ++ [x]) = Some (l, x).
Proof.
  induction l as [|y l IH]; simpl; [reflexivity|].
  now rewrite IH.
Qed.

Lemma pop_Some {A} (l r : list A) (x : A) : JS.pop l = Some (r, x) -> l = r ++ [x].
Proof.
  revert r. induction l as [|y l IH]; simpl; intros r H; [discriminate|].
  destruct (JS.pop l) as [[r' z]|] eqn:E.
  - injection H as <- <-. simpl. f_equal. now apply IH.
  - injection H as <- <-. destruct l as [|w l]; [reflexivity|].
    simpl in E. destruct (JS.pop l) as [[? ?]|]; discriminate.
Qed.

Lemma pop_None {A} (l : list A) : JS.pop l = None <-> l = [].
Proof.
  split; [|intros ->; reflexivity].
  destruct l as [|y l]; [reflexivity|]. simpl.
  destruct (JS.pop l) as [[? ?]|]; discriminate.
Qed.

Lemma includes_In (x : string) (l : list string) : JS.includes x l = true <-> In x l.
Proof.
  unfold JS.includes. rewrite existsb_exists. split.
  - intros (y & Hy & E). apply String.eqb_eq in E. now subst.
  - intros H. exists x. split; [assumption|apply String.eqb_refl].
Qed.

Lemma index_Some {A} (l : list A) (i : Z) (x : A) :
  JS.index l i = Some x -> 0 <= i < JS.len l /\ l !! Z.to_nat i = Some x.
Proof.
  unfold JS.index, JS.len. destruct (Z.ltb_spec i 0) as [Hlt|Hge]; [discriminate|].
  intros H. split; [|assumption].
  apply lookup_lt_Some in H. lia.
Qed.

Lemma isCurrentPlayer_spec (g : Game.t) (p : string) :
  Game.isCurrentPlayer g p = true <-> Game.getCurrentPlayer g = Some p.
Proof.
  unfold Game.isCurrentPlayer. destruct (Game.getCurrentPlayer g) as [q|].
  - rewrite String.eqb_eq. split; congruence.
  - split; discriminate.
Qed.

Lemma currentPlayer_in_range (g : Game.t) (p : string) :
  Game.getCurrentPlayer g = Some p ->
  0 <= Game.currentTurn g < JS.len (Game.players g) /\ In p (Game.players g).
Proof.
  intros H. apply index_Some in H as [Hr Hl]. split; [assumption|].
  apply list_elem_of_In. eapply list_elem_of_lookup_2. eassumption.
Qed.

(** The tables are what their descriptions say: games with a full deck,
    started (or ended by the host), at the stated turn. *)
Lemma example_tables :
  Forall (fun g => Game.status g = Game.started /\ length (Game.deck g) = 52%nat
                   /\ Game.currentTurn g = 0 /\ Game.history g = [])
    [Examples.save_table; Examples.jack_table; Examples.queen_table;
     Examples.seven_table] /\
  (Game.status Examples.kings_table = Game.started /\
   Game.kingsCount Examples.kings_table = 3 /\
   Game.getCurrentPlayer Examples.kings_table = Some "b" /\
   length (Game.deck Examples.kings_table) = 49%nat) /\
  (Game.status Examples.ace_table = Game.started /\
   length (Game.history Examples.ace_table) = 3%nat /\
   Game.status Examples.venganza_table = Game.ended) /\
  (Game.status Examples.full_hand_table = Game.started /\
   length <$> JS.lookup_field "p" (Game.savedCards Examples.full_hand_table)
   = Some 3%nat) /\
  (Game.status Examples.lobby = Game.waiting /\
   length (Game.deck Examples.lobby) = 52%nat) /\
  (Game.status Examples.exhausted_table = Game.started /\
   length (Game.history Examples.exhausted_table) = 52%nat).
Proof. repeat constructor. Qed.

(* ------------------------------------------------------------------ *)
(** ** What a draw does *)

Lemma drawCard_draws (g : Game.t) (p : string) (now : Z) (rest : list Card.t) (c : Card.t) :
  Game.status g = Game.started ->
  Game.getCurrentPlayer g = Some p ->
  Game.deck g = rest ++ [c] ->
  Game.drawCard p now g = Ok (Post.drawn g p now rest c, Some c).
Proof.
  intros Hst Hcur Hdeck. unfold Game.drawCard.
  apply isCurrentPlayer_spec in Hcur. rewrite Hst, Hcur, Hdeck, pop_snoc.
  destruct g, c as [s r]; simpl in *; subst.
  destruct r; reflexivity.
Qed.

Lemma drawCard_Some_inv (g g' : Game.t) (p : string) (now : Z) (c : Card.t) :
  Game.drawCard p now g = Ok (g', Some c) ->
  Game.status g = Game.started /\ Game.getCurrentPlayer g = Some p /\
  exists rest, Game.deck g = rest ++ [c].
Proof.
  unfold Game.drawCard.
  destruct (Game.status_eqb (Game.status g) Game.started) eqn:Hst; [|discriminate].
  destruct (Game.isCurrentPlayer g p) eqn:Hcur; [|discriminate]. simpl.
  destruct (JS.pop (Game.deck g)) as [[rest c']|] eqn:Hpop; [|discriminate].
  intros H. injection H as _ ->.
  apply status_eqb_eq in Hst. apply isCurrentPlayer_spec in Hcur.
  apply pop_Some in Hpop. eauto.
Qed.

Lemma validateCardDraw_None (g : Game.t) (p : string) :
  GameService.validateCardDraw g p = None <->
  Game.status g = Game.started /\ Game.getCurrentPlayer g = Some p /\ Game.deck g <> [].
Proof.
  unfold GameService.validateCardDraw.
  rewrite <- isCurrentPlayer_spec, <- status_eqb_eq.
  destruct (Game.status_eqb (Game.status g) Game.started),
    (Game.isCurrentPlayer g p); simpl; try (split; [discriminate|intros (?&?&?); discriminate]).
  unfold JS.len. destruct (Game.deck g) as [|c d]; simpl.
  - split; [discriminate|]. intros (_ & _ & H). now destruct H.
  - split; [|reflexivity]. intros _. repeat split; discriminate.
Qed.

Lemma nonempty_snoc {A} (l : list A) : l <> [] -> exists r x, l = r ++ [x].
Proof.
  intros H. destruct (JS.pop l) as [[r x]|] eqn:E.
  - exists r, x. now apply pop_Some.
  - apply pop_None in E. contradiction.
Qed.

(** A draw the use case accepts: the game is started, it is the player's
    turn and the deck has a last card; the saved game and the response are
    then determined. *)
Lemma execute_Success_inv (g saved : Game.t) (gameCode p : string) (now : Z)
    (data : DrawCard.Data) :
  DrawCard.execute (Some g) gameCode p now = DrawCard.Success saved data ->
  Game.status g = Game.started /\ Game.getCurrentPlayer g = Some p /\
  exists rest c,
    Game.deck g = rest ++ [c] /\
    saved = Post.saved_after_draw g p now rest c /\
    DrawCard.card data = Card.toJSON c /\
    DrawCard.rule data = GameService.applyCardRule saved c p /\
    DrawCard.info data = DrawCard.extraInfo saved c p.
Proof.
  unfold DrawCard.execute.
  destruct (String.eqb gameCode ""); [discriminate|].
  destruct (String.eqb p ""); [discriminate|].
  destruct (GameService.validateCardDraw g p) eqn:Hv; [discriminate|].
  apply validateCardDraw_None in Hv as (Hst & Hcur & Hne).
  destruct (nonempty_snoc _ Hne) as (rest & c & Hdeck).
  rewrite (drawCard_draws g p now rest c Hst Hcur Hdeck).
  intros H. injection H as <- <-.
  split; [assumption|]. split; [assumption|].
  exists rest, c. repeat split; try assumption; reflexivity.
Qed.

Lemma execute_draw (g : Game.t) (gameCode p : string) (now : Z)
    (rest : list Card.t) (c : Card.t) :
  gameCode <> "" -> p <> "" ->
  Game.status g = Game.started ->
  Game.getCurrentPlayer g = Some p ->
  Game.deck g = rest ++ [c] ->
  let saved := Post.saved_after_draw g p now rest c in
  DrawCard.execute (Some g) gameCode p now
  = DrawCard.Success saved
      (DrawCard.mkData (Card.toJSON c) (GameService.applyCardRule saved c p)
         (Game.getCurrentPlayer saved) (JS.len (Game.deck saved))
         (Game.isGameOver saved) (DrawCard.extraInfo saved c p)).
Proof.
  intros Hc Hp Hst Hcur Hdeck saved. unfold DrawCard.execute.
  apply String.eqb_neq in Hc, Hp. rewrite Hc, Hp.
  assert (Hv : GameService.validateCardDraw g p = None).
  { apply validateCardDraw_None. repeat split; try assumption.
    rewrite Hdeck. now destruct rest. }
  rewrite Hv, (drawCard_draws g p now rest c Hst Hcur Hdeck).
  reflexivity.
Qed.

(** Ending the game touches the status and the end time only, so these
    fields of the saved game are those of the game just after the draw. *)
Lemma saved_after_draw_fields (g : Game.t) (p : string) (now : Z)
    (rest : list Card.t) (c : Card.t) (g1 saved : Game.t) :
  g1 = Post.drawn g p now rest c ->
  saved = Post.saved_after_draw g p now rest c ->
  Game.players saved = Game.players g /\
  Game.host saved = Game.host g /\
  Game.deck saved = rest /\
  Game.savedCards saved = Game.savedCards g /\
  Game.currentTurn saved = Game.currentTurn g1 /\
  Game.kingsCount saved = Game.kingsCount g1 /\
  Game.cupContent saved = Game.cupContent g1 /\
  Game.venganzaCards saved = Game.venganzaCards g1 /\
  Game.history saved = Game.history g1 /\
  Game.status saved =
    (if GameService.shouldGameEnd g1 then Game.ended else Game.started).
Proof.
  intros -> ->. unfold Post.saved_after_draw.
  destruct (GameService.shouldGameEnd _); repeat split; reflexivity.
Qed.

Lemma rem_next_turn (t n : Z) : 0 <= t < n -> JS.rem (t + 1) n = (t + 1) mod n.
Proof. intros H. unfold JS.rem. apply Z.rem_mod_nonneg; lia. Qed.

Lemma Card_fromJSON_toJSON (c : Card.t) : Card.fromJSON (Card.toJSON c) = Some c.
Proof. destruct c as [s r]; destruct s, r; reflexivity. Qed.

(* ------------------------------------------------------------------ *)
(** ** Saved cards at a draw (C1) *)

(** No draw touches [savedCards]: neither [Game.drawCard] nor the use case
    calls [Game.saveCard]. *)
Lemma draw_leaves_savedCards (g : Game.t) (gameCode p : string) (now : Z)
    (saved : Game.t) (data : DrawCard.Data) :
  DrawCard.execute (Some g) gameCode p now = DrawCard.Success saved data ->
  Game.savedCards saved = Game.savedCards g.
Proof.
  intros H. apply execute_Success_inv in H as (_ & _ & rest & c & _ & -> & _).
  eapply saved_after_draw_fields; reflexivity.
Qed.

(** C1 (evaluation at the failing input).  "p" draws the 5 of hearts and then
    "q" the 9 of spades.  Both responses announce a saved card
    ([card_saved], "Carta 5 guardada para uso posterior"), yet the list of
    saved cards of the drawing player is empty after each draw: the drawn
    card is not pushed onto [savedCards]. *)
Theorem C1_drawn_five_and_nine_are_not_saved :
  exists s1 d1 s2 d2,
    DrawCard.execute (Some Examples.save_table) Examples.code "p" 5
      = DrawCard.Success s1 d1 /\
    DrawCard.card d1 = Card.toJSON (Examples.card Card.R5 Card.hearts) /\
    GameService.action (DrawCard.rule d1) = "card_saved" /\
    DrawCard.info d1 = DrawCard.SavedCardInfo "Carta 5 guardada para uso posterior" [] /\
    JS.lookup_field "p" (Game.savedCards s1) = Some [] /\
    DrawCard.execute (Some s1) Examples.code "q" 6 = DrawCard.Success s2 d2 /\
    DrawCard.card d2 = Card.toJSON (Examples.card Card.R9 Card.spades) /\
    GameService.action (DrawCard.rule d2) = "card_saved" /\
    DrawCard.info d2 = DrawCard.SavedCardInfo "Carta 9 guardada para uso posterior" [] /\
    JS.lookup_field "q" (Game.savedCards s2) = Some [] /\
    JS.lookup_field "p" (Game.savedCards s2) = Some [].
Proof.
  do 4 eexists.
  split; [lazy; reflexivity|].
  do 4 (split; [reflexivity|]).
  split; [lazy; reflexivity|].
  repeat split; reflexivity.
Qed.

(* ------------------------------------------------------------------ *)
(** ** The fourth king (C2) *)

Lemma shouldGameEnd_spec (g : Game.t) :
  GameService.shouldGameEnd g = true <->
  Game.deck g = [] \/ JS.len (Game.players g) <= 1.
Proof.
  unfold GameService.shouldGameEnd.
  assert (Hd : JS.len (Game.deck g) = 0 <-> Game.deck g = []).
  { unfold JS.len. destruct (Game.deck g); simpl; split; (lia || congruence). }
  destruct (Z.eqb_spec (JS.len (Game.deck g)) 0) as [E|E].
  - split; [intros _; left; now apply Hd|reflexivity].
  - destruct (Z.leb_spec (JS.len (Game.players g)) 1) as [L|L].
    + split; [intros _; now right|reflexivity].
    + split; [discriminate|]. intros [H|H]; [apply Hd in H; contradiction|lia].
Qed.

(** C2, as stated, fails: "b" draws the fourth king with 48 cards left; the
    saved game has [kingsCount = 4] and is still started. *)
Lemma C2_fourth_king_counterexample :
  ~ (forall (g saved : Game.t) (gameCode p : string) (now : Z) (data : DrawCard.Data)
            (c : Card.t),
        DrawCard.execute (Some g) gameCode p now = DrawCard.Success saved data ->
        DrawCard.card data = Card.toJSON c -> Card.rank c = Card.RK ->
        Game.kingsCount saved = 4 ->
        Game.status saved = Game.ended /\
        forall (q : string) (now' : Z),
          exists m, DrawCard.execute (Some saved) gameCode q now' = DrawCard.Failure m).
Proof.
  intros H.
  destruct (DrawCard.execute (Some Examples.kings_table) Examples.code "b" 9)
    as [saved data|m] eqn:E; [|lazy in E; discriminate].
  specialize (H _ _ _ _ _ _ (Examples.card Card.RK Card.spades) E).
  lazy in E. injection E as <- <-.
  destruct H as [Hst _]; [reflexivity..|].
  lazy in Hst. discriminate.
Qed.

(** C2, amended.  Drawing a king -- the fourth included -- increments
    [kingsCount], appends the cup entry and advances the turn.  The session
    ends with that draw only if it took the last card or at most one player
    remains; otherwise it stays started, and the draw of the player whose turn
    it then is, is accepted. *)
Theorem C2_king_draw_ends_only_on_empty_deck (g : Game.t) (gameCode p : string)
    (now : Z) (rest : list Card.t) (c : Card.t) :
  gameCode <> "" -> p <> "" ->
  Game.status g = Game.started ->
  Game.getCurrentPlayer g = Some p ->
  Game.deck g = rest ++ [c] ->
  Card.rank c = Card.RK ->
  exists saved data,
    DrawCard.execute (Some g) gameCode p now = DrawCard.Success saved data /\
    Game.kingsCount saved = Game.kingsCount g + 1 /\
    Game.cupContent saved
      = Game.cupContent g ++ [Game.cupEntry p (Game.kingsCount g + 1) now] /\
    Game.currentTurn saved = (Game.currentTurn g + 1) mod JS.len (Game.players g) /\
    (Game.status saved = Game.ended <-> rest = [] \/ JS.len (Game.players g) <= 1) /\
    (Game.status saved = Game.started ->
     forall (q : string) (now' : Z),
       Game.getCurrentPlayer saved = Some q -> q <> "" ->
       exists saved' data',
         DrawCard.execute (Some saved) gameCode q now' = DrawCard.Success saved' data').
Proof.
  intros Hc Hp Hst Hcur Hdeck Hk.
  pose proof (execute_draw g gameCode p now rest c Hc Hp Hst Hcur Hdeck) as E.
  cbv zeta in E. eexists _, _. split; [exact E|].
  destruct (saved_after_draw_fields g p now rest c _ _ eq_refl eq_refl)
    as (Hpl & _ & Hd & _ & Ht & Hkc & Hcup & _ & _ & Hs).
  destruct (currentPlayer_in_range g p Hcur) as [Hr _].
  assert (Hend : GameService.shouldGameEnd (Post.drawn g p now rest c) = true <->
                 rest = [] \/ JS.len (Game.players g) <= 1)
    by exact (shouldGameEnd_spec (Post.drawn g p now rest c)).
  rewrite Hkc, Hcup, Ht, Hs. simpl. rewrite Hk. simpl.
  repeat split.
  - now apply rem_next_turn.
  - destruct (GameService.shouldGameEnd _); [intros _; now apply Hend|discriminate].
  - intros H. apply Hend in H. now rewrite H.
  - intros Hstart q now' Hq Hq'.
    destruct (GameService.shouldGameEnd (Post.drawn g p now rest c)) eqn:Hsg;
      [discriminate|].
    assert (Hne : rest <> []).
    { intros ->. assert (false = true) by (apply Hend; now left). discriminate. }
    destruct (nonempty_snoc _ Hne) as (r' & c' & Hr').
    assert (Hdk : Game.deck (Post.saved_after_draw g p now rest c) = r' ++ [c'])
      by (rewrite Hd; exact Hr').
    eexists _, _.
    exact (execute_draw _ gameCode q now' r' c' Hc Hq' Hs Hq Hdk).
Qed.

Lemma C2_king_draw_witness :
  (Examples.code <> "" /\ "b" <> "" /\
   Game.status Examples.kings_table = Game.started /\
   Game.getCurrentPlayer Examples.kings_table = Some "b" /\
   Game.deck Examples.kings_table
   = removelast (Game.deck Examples.kings_table)
     ++ [Examples.card Card.RK Card.spades] /\
   Game.kingsCount Examples.kings_table = 3) /\
  exists saved data,
    DrawCard.execute (Some Examples.kings_table) Examples.code "b" 9
      = DrawCard.Success saved data /\
    Game.kingsCount saved = 4 /\
    Game.status saved = Game.started /\
    forall (q : string) (now' : Z),
      Game.getCurrentPlayer saved = Some q -> q <> "" ->
      exists saved' data',
        DrawCard.execute (Some saved) Examples.code q now'
        = DrawCard.Success saved' data'.
Proof.
  assert (H1 : Examples.code <> "") by discriminate.
  assert (H2 : "b" <> "") by discriminate.
  split; [repeat split; first [assumption|reflexivity]|].
  destruct (C2_king_draw_ends_only_on_empty_deck Examples.kings_table Examples.code
              "b" 9 (removelast (Game.deck Examples.kings_table))
              (Examples.card Card.RK Card.spades) H1 H2 eq_refl eq_refl eq_refl eq_refl)
    as (saved & data & E & Hk & _ & _ & Hend & Hnext).
  assert (Hst : Game.status saved = Game.started).
  { destruct (Game.status saved) eqn:S; [|reflexivity|].
    - lazy in E. injection E as <- _. discriminate.
    - destruct Hend as [Hend _]. destruct (Hend eq_refl) as [H|H];
        [discriminate|vm_compute in H; now destruct H]. }
  exists saved, data. repeat split; [exact E|exact Hk|exact Hst|exact (Hnext Hst)].
Defined.

(* ------------------------------------------------------------------ *)
(** ** Left and right neighbours (C4) *)

(** The rule of the drawn card is applied to the game as [drawCard] left it,
    the turn already advanced: a jack names the player two seats after the
    drawer, a queen the drawer. *)
Lemma neighbours_are_taken_after_the_advance (g : Game.t) (gameCode p : string)
    (now : Z) (rest : list Card.t) (c : Card.t) :
  gameCode <> "" -> p <> "" ->
  Game.status g = Game.started ->
  Game.getCurrentPlayer g = Some p ->
  Game.deck g = rest ++ [c] ->
  exists saved data,
    DrawCard.execute (Some g) gameCode p now = DrawCard.Success saved data /\
    (Card.rank c = Card.RJ ->
     GameService.targetPlayer (DrawCard.rule data)
     = JS.index (Game.players g)
         ((Game.currentTurn g + 2) mod JS.len (Game.players g))) /\
    (Card.rank c = Card.RQ ->
     GameService.targetPlayer (DrawCard.rule data) = Some p).
Proof.
  intros Hc Hp Hst Hcur Hdeck.
  pose proof (execute_draw g gameCode p now rest c Hc Hp Hst Hcur Hdeck) as E.
  cbv zeta in E. eexists _, _. split; [exact E|].
  destruct (saved_after_draw_fields g p now rest c _ _ eq_refl eq_refl)
    as (Hpl & _ & _ & _ & Ht & _).
  destruct (currentPlayer_in_range g p Hcur) as [Hr _].
  set (n := JS.len (Game.players g)) in *.
  set (t := Game.currentTurn g) in *.
  assert (Ht' : Game.currentTurn (Post.saved_after_draw g p now rest c) = (t + 1) mod n).
  { rewrite Ht. simpl. now apply rem_next_turn. }
  assert (Hb : 0 <= (t + 1) mod n < n) by (apply Z.mod_pos_bound; lia).
  cbn [DrawCard.rule]. unfold GameService.applyCardRule. split; intros Hrank; rewrite Hrank.
  - cbn [GameService.targetPlayer].
    unfold GameService.getLeftPlayer, GameService.getNextPlayer.
    rewrite Hpl, Ht'. fold n. f_equal. unfold JS.rem.
    rewrite Z.rem_mod_nonneg by lia.
    rewrite Z.add_mod_idemp_l by lia. f_equal. lia.
  - cbn [GameService.targetPlayer].
    unfold GameService.getRightPlayer, GameService.getPreviousPlayer.
    rewrite Hpl, Ht'. fold n. unfold JS.rem.
    rewrite Z.rem_mod_nonneg by lia.
    replace ((t + 1) mod n - 1 + n) with ((t + 1) mod n + (n - 1)) by lia.
    rewrite Z.add_mod_idemp_l by lia.
    replace (t + 1 + (n - 1)) with (t + 1 * n) by lia.
    rewrite Z.mod_add by lia. rewrite Z.mod_small by lia. exact Hcur.
Qed.

(** C4 (evaluation at the failing input).  Players "a", "b", "c", turn index
    0.  "a" draws the jack of hearts: the player at position (0+1) mod 3 is
    "b", the outcome targets "c".  "a" draws the queen of spades: the player at
    position (0-1+3) mod 3 is "c", the outcome targets "a", the drawer. *)
Theorem C4_jack_and_queen_targets :
  Game.players Examples.jack_table = ["a"; "b"; "c"] /\
  Game.currentTurn Examples.jack_table = 0 /\
  JS.index (Game.players Examples.jack_table) ((0 + 1) mod 3) = Some "b" /\
  (exists saved data,
     DrawCard.execute (Some Examples.jack_table) Examples.code "a" 5
       = DrawCard.Success saved data /\
     DrawCard.card data = Card.toJSON (Examples.card Card.RJ Card.hearts) /\
     GameService.action (DrawCard.rule data) = "drink_left" /\
     GameService.targetPlayer (DrawCard.rule data) = Some "c") /\
  Game.players Examples.queen_table = ["a"; "b"; "c"] /\
  Game.currentTurn Examples.queen_table = 0 /\
  JS.index (Game.players Examples.queen_table) ((0 - 1 + 3) mod 3) = Some "c" /\
  (exists saved data,
     DrawCard.execute (Some Examples.queen_table) Examples.code "a" 5
       = DrawCard.Success saved data /\
     DrawCard.card data = Card.toJSON (Examples.card Card.RQ Card.spades) /\
     GameService.action (DrawCard.rule data) = "drink_right" /\
     GameService.targetPlayer (DrawCard.rule data) = Some "a").
Proof.
  do 3 (split; [reflexivity|]).
  split; [eexists _, _; split; [lazy; reflexivity|repeat split; reflexivity]|].
  do 3 (split; [reflexivity|]).
  eexists _, _; split; [lazy; reflexivity|repeat split; reflexivity].
Qed.

(* ------------------------------------------------------------------ *)
(** ** Turn order (C5) *)

(** C5, as stated, fails.  With players "a", "b", "c" at turn index 0, "a"
    draws the 7 of hearts.  If the toggle counts for the draw that causes it,
    the specified direction is -1 and the specified turn index
    (0 - 1 + 3) mod 3 = 2, while the saved game has turn index 1.  If it
    counts from the next draw on, the following draw of "b" should lead to
    (1 - 1 + 3) mod 3 = 0, while the saved game has turn index 2. *)
Lemma C5_direction_counterexample :
  ~ (forall (g saved : Game.t) (gameCode p : string) (now : Z) (data : DrawCard.Data),
        DrawCard.execute (Some g) gameCode p now = DrawCard.Success saved data ->
        Game.currentTurn saved
        = Spec.turn_after (Game.currentTurn g)
            (Spec.direction (Spec.sevens_drawn saved)) (JS.len (Game.players g))) /\
  ~ (forall (g saved : Game.t) (gameCode p : string) (now : Z) (data : DrawCard.Data),
        DrawCard.execute (Some g) gameCode p now = DrawCard.Success saved data ->
        Game.currentTurn saved
        = Spec.turn_after (Game.currentTurn g)
            (Spec.direction (Spec.sevens_drawn g)) (JS.len (Game.players g))).
Proof.
  destruct (DrawCard.execute (Some Examples.seven_table) Examples.code "a" 5)
    as [s1 d1|m] eqn:E1; [|lazy in E1; discriminate].
  split; intros H.
  - specialize (H _ _ _ _ _ _ E1).
    lazy in E1. injection E1 as <- <-.
    lazy in H. discriminate.
  - destruct (DrawCard.execute (Some s1) Examples.code "b" 6)
      as [s2 d2|m] eqn:E2;
      [|lazy in E1; injection E1 as <- <-; lazy in E2; discriminate].
    specialize (H _ _ _ _ _ _ E2).
    lazy in E1. injection E1 as <- <-.
    lazy in E2. injection E2 as <- <-.
    lazy in H. discriminate.
Qed.

(** After the 7 the turns go on in the same order: "b" draws next and the
    turn passes to "c" (index 2), not back to "a". *)
Lemma seven_does_not_reverse :
  exists s1 d1 s2 d2,
    DrawCard.execute (Some Examples.seven_table) Examples.code "a" 5
      = DrawCard.Success s1 d1 /\
    DrawCard.card d1 = Card.toJSON (Examples.card Card.R7 Card.hearts) /\
    Game.currentTurn s1 = 1 /\
    DrawCard.execute (Some s1) Examples.code "b" 6 = DrawCard.Success s2 d2 /\
    Game.currentTurn s2 = 2.
Proof.
  do 4 eexists.
  split; [lazy; reflexivity|].
  do 2 (split; [reflexivity|]).
  split; [lazy; reflexivity|reflexivity].
Qed.

(** C5, amended.  Every accepted draw, of whatever rank, moves the turn
    index to (turnIndex + 1) mod n: the direction of the specified formula is
    constantly +1, a rank 7 does not change it. *)
Theorem C5_turn_advances_by_one (g : Game.t) (gameCode p : string) (now : Z)
    (rest : list Card.t) (c : Card.t) :
  gameCode <> "" -> p <> "" ->
  Game.status g = Game.started ->
  Game.getCurrentPlayer g = Some p ->
  Game.deck g = rest ++ [c] ->
  exists saved data,
    DrawCard.execute (Some g) gameCode p now = DrawCard.Success saved data /\
    Game.players saved = Game.players g /\
    Game.currentTurn saved = (Game.currentTurn g + 1) mod JS.len (Game.players g) /\
    Game.currentTurn saved
    = Spec.turn_after (Game.currentTurn g) 1 (JS.len (Game.players g)).
Proof.
  intros Hc Hp Hst Hcur Hdeck.
  pose proof (execute_draw g gameCode p now rest c Hc Hp Hst Hcur Hdeck) as E.
  cbv zeta in E. eexists _, _. split; [exact E|].
  destruct (saved_after_draw_fields g p now rest c _ _ eq_refl eq_refl)
    as (Hpl & _ & _ & _ & Ht & _).
  destruct (currentPlayer_in_range g p Hcur) as [Hr _].
  split; [exact Hpl|]. rewrite Ht. simpl. rewrite rem_next_turn by assumption.
  split; [reflexivity|]. unfold Spec.turn_after.
  replace (Game.currentTurn g + 1 + JS.len (Game.players g))
    with (Game.currentTurn g + 1 + 1 * JS.len (Game.players g)) by lia.
  rewrite Z.mod_add by lia. reflexivity.
Qed.

Lemma C5_turn_advances_witness :
  (Examples.code <> "" /\ "a" <> "" /\
   Game.status Examples.seven_table = Game.started /\
   Game.getCurrentPlayer Examples.seven_table = Some "a" /\
   Game.deck Examples.seven_table
   = removelast (Game.deck Examples.seven_table)
     ++ [Examples.card Card.R7 Card.hearts]) /\
  exists saved data,
    DrawCard.execute (Some Examples.seven_table) Examples.code "a" 5
      = DrawCard.Success saved data /\
    Game.players saved = ["a"; "b"; "c"] /\
    Game.currentTurn saved = 1.
Proof.
  assert (H1 : Examples.code <> "") by discriminate.
  assert (H2 : "a" <> "") by discriminate.
  split; [repeat split; first [assumption|reflexivity]|].
  destruct (C5_turn_advances_by_one Examples.seven_table Examples.code "a" 5
              (removelast (Game.deck Examples.seven_table))
              (Examples.card Card.R7 Card.hearts) H1 H2 eq_refl eq_refl eq_refl)
    as (saved & data & E & Hp & Ht & _).
  exists saved, data. repeat split; [exact E|exact Hp|exact Ht].
Defined.

(* ------------------------------------------------------------------ *)
(** ** Consuming a venganza (C3) *)

(** [useVenganza] keeps the entries of the other players and drops every
    entry of the consuming player, however many there are. *)
Lemma useVenganza_drops_all_of_player (g g' : Game.t) (p target : string) (now : Z)
    (r : JS.val) :
  Game.useVenganza p target now g = Ok (g', r) ->
  Game.venganzaCards g'
    = List.filter (fun v => negb (Game.playerId_is p v)) (Game.venganzaCards g) /\
  List.filter (Game.playerId_is p) (Game.venganzaCards g') = [] /\
  length (Game.history g') = S (length (Game.history g)).
Proof.
  unfold Game.useVenganza.
  destruct (Game.status_eqb (Game.status g) Game.ended); [|discriminate].
  destruct (JS.find _ _) as [v|]; [|discriminate].
  destruct (JS.includes target (Game.players g)); [|discriminate].
  simpl. intros H. injection H as <- _. simpl.
  split; [reflexivity|]. split.
  - induction (Game.venganzaCards g) as [|x l IH]; [reflexivity|]. simpl.
    destruct (Game.playerId_is p x) eqn:E; simpl; [exact IH|].
    rewrite E. exact IH.
  - rewrite length_app. simpl. lia.
Qed.

(** C3 (evaluation at the failing input).  The game has ended; "p" owns both
    venganza entries (two aces drawn, none consumed).  One [useVenganza] of
    "p" against "q" succeeds, records one consumption and leaves
    [venganzaCards] empty, where 2 - 1 = 1 entry should remain; a second
    attempt finds no venganza. *)
Theorem C3_one_consume_removes_both_entries :
  Game.status Examples.venganza_table = Game.ended /\
  length (List.filter (Game.playerId_is "p")
            (Game.venganzaCards Examples.venganza_table)) = 2%nat /\
  Spec.aces_drawn Examples.venganza_table = 2%nat /\
  Spec.venganzas_consumed Examples.venganza_table = 0%nat /\
  exists g' r,
    Game.useVenganza "p" "q" 10 Examples.venganza_table = Ok (g', r) /\
    Game.venganzaCards g' = [] /\
    Spec.aces_drawn g' = 2%nat /\
    Spec.venganzas_consumed g' = 1%nat /\
    Game.useVenganza "p" "q" 11 g' = Throw NoVenganzaCards.
Proof.
  do 4 (split; [reflexivity|]).
  eexists _, _. split; [lazy; reflexivity|].
  repeat split; reflexivity.
Qed.

(* ------------------------------------------------------------------ *)
(** ** The cap on saved cards (C8) *)

(** C8, as stated, fails: "p" holds three saved cards and a fourth
    [saveCard] throws. *)
Lemma C8_fourth_save_counterexample :
  ~ (forall (g : Game.t) (p : string) (c : Card.t) (oldest : JS.val) (others : list JS.val),
        JS.includes p (Game.players g) = true ->
        JS.lookup_field p (Game.savedCards g) = Some (oldest :: others) ->
        length (oldest :: others) = 3%nat ->
        exists g',
          Game.saveCard p c g = Ok g' /\
          JS.lookup_field p (Game.savedCards g') = Some (others ++ [Card.toJSON c])).
Proof.
  intros H.
  destruct (H Examples.full_hand_table "p" (Examples.card Card.R9 Card.hearts) _ _
              eq_refl eq_refl eq_refl) as (g' & E & _).
  lazy in E. discriminate.
Qed.

(** C8, amended.  For a player of the game who already holds 3 saved cards
    (or more), saving another card is refused with the error "El jugador ya
    tiene el máximo de cartas guardadas (3)"; nothing is stored and nothing
    is dropped. *)
Theorem C8_fourth_save_is_refused (g : Game.t) (p : string) (c : Card.t)
    (cards : list JS.val) :
  JS.includes p (Game.players g) = true ->
  JS.lookup_field p (Game.savedCards g) = Some cards ->
  (3 <= length cards)%nat ->
  Game.saveCard p c g = Throw MaxSavedCards /\
  error_message MaxSavedCards = "El jugador ya tiene el máximo de cartas guardadas (3)".
Proof.
  intros Hin Hl Hn. unfold Game.saveCard. rewrite Hin, Hl. simpl.
  unfold JS.len. destruct (Z.leb_spec 3 (Z.of_nat (length cards))); [|lia].
  split; reflexivity.
Qed.

Lemma C8_fourth_save_witness :
  (JS.includes "p" (Game.players Examples.full_hand_table) = true /\
   length <$> JS.lookup_field "p" (Game.savedCards Examples.full_hand_table)
   = Some 3%nat) /\
  Game.saveCard "p" (Examples.card Card.R9 Card.hearts) Examples.full_hand_table
    = Throw MaxSavedCards.
Proof.
  split; [split; reflexivity|].
  apply (C8_fourth_save_is_refused Examples.full_hand_table "p"
           (Examples.card Card.R9 Card.hearts)
           (default [] (JS.lookup_field "p" (Game.savedCards Examples.full_hand_table))));
    [reflexivity | reflexivity | vm_compute; lia].
Defined.

(** Below the cap the card is appended to the player's list. *)
Lemma saveCard_appends (g : Game.t) (p : string) (c : Card.t) (cards : list JS.val) :
  JS.includes p (Game.players g) = true ->
  JS.lookup_field p (Game.savedCards g) = Some cards ->
  (length cards < 3)%nat ->
  exists g',
    Game.saveCard p c g = Ok g' /\
    Game.savedCards g'
      = JS.set_field p (cards ++ [Card.toJSON c]) (Game.savedCards g).
Proof.
  intros Hin Hl Hn. unfold Game.saveCard. rewrite Hin, Hl. simpl.
  unfold JS.len. destruct (Z.leb_spec 3 (Z.of_nat (length cards))); [lia|].
  eexists. split; reflexivity.
Qed.

(* ------------------------------------------------------------------ *)
(** ** What a leave changes (C10, C7) *)

Lemma includes_indexOf (p : string) (l : list string) :
  JS.includes p l = true -> exists i, JS.indexOf p l = Some i.
Proof.
  induction l as [|x l IH]; simpl; [discriminate|].
  destruct (String.eqb p x); [eauto|]. simpl. intros H.
  destruct (IH H) as [i ->]. eauto.
Qed.

Lemma lookup_delete_field_ne {A} (p q : string) (fs : list (string * A)) :
  q <> p -> JS.lookup_field q (JS.delete_field p fs) = JS.lookup_field q fs.
Proof.
  intros Hne. induction fs as [|[k v] fs IH]; [reflexivity|]. simpl.
  destruct (String.eqb_spec p k) as [<-|Hpk]; simpl.
  - destruct (String.eqb_spec q p); [contradiction|exact IH].
  - now rewrite IH.
Qed.

Lemma lookup_delete_field_eq {A} (p : string) (fs : list (string * A)) :
  JS.lookup_field p (JS.delete_field p fs) = None.
Proof.
  induction fs as [|[k v] fs IH]; [reflexivity|]. simpl.
  destruct (String.eqb_spec p k) as [<-|Hpk]; simpl; [exact IH|].
  destruct (String.eqb_spec p k); [contradiction|exact IH].
Qed.

Lemma removePlayer_leaves (g : Game.t) (p : string) (i : nat) :
  JS.indexOf p (Game.players g) = Some i ->
  Game.removePlayer p g = (true, Post.left g p i).
Proof.
  intros Hi. unfold Game.removePlayer, Post.left. rewrite Hi.
  destruct g; cbn. 
  destruct (String.eqb host p && (0 <? JS.len (JS.splice1 i players)))%bool; cbn;
    destruct (JS.len (JS.splice1 i players) <=? currentTurn); reflexivity.
Qed.

(** C10.  A leave of a player [p] of the game changes the player list ([p]
    is taken out), the saved cards of [p] (the entries of the others stay),
    the host (only if [p] was the host: the head of the remaining list takes
    over) and the turn index (reset to 0 when it falls outside the list).  The code, the
    deck, the history, the rules, the status, the three timestamps, the kings
    count, the cup content and the venganza cards are unchanged.  In
    particular the venganza entries of [p] are still there, and once the game
    has ended [Game.useVenganza] still accepts [p] against any remaining
    player. *)
Theorem C10_leave_frame (g : Game.t) (p : string) :
  JS.includes p (Game.players g) = true ->
  exists g',
    Game.removePlayer p g = (true, g') /\
    Game.code g' = Game.code g /\
    Game.deck g' = Game.deck g /\
    Game.history g' = Game.history g /\
    Game.rules g' = Game.rules g /\
    Game.status g' = Game.status g /\
    Game.createdAt g' = Game.createdAt g /\
    Game.startedAt g' = Game.startedAt g /\
    Game.endedAt g' = Game.endedAt g /\
    Game.kingsCount g' = Game.kingsCount g /\
    Game.cupContent g' = Game.cupContent g /\
    Game.venganzaCards g' = Game.venganzaCards g /\
    (Game.host g <> p -> Game.host g' = Game.host g) /\
    (Game.host g = p -> Game.players g' <> [] ->
     Some (Game.host g') = head (Game.players g')) /\
    JS.lookup_field p (Game.savedCards g') = None /\
    (forall q, q <> p ->
       JS.lookup_field q (Game.savedCards g') = JS.lookup_field q (Game.savedCards g)) /\
    Game.currentTurn g'
      = (if JS.len (Game.players g') <=? Game.currentTurn g then 0
         else Game.currentTurn g) /\
    (exists i, JS.indexOf p (Game.players g) = Some i /\
               Game.players g' = JS.splice1 i (Game.players g)) /\
    (forall (v : JS.val) (target : string) (now now' : Z),
       JS.find (Game.playerId_is p) (Game.venganzaCards g) = Some v ->
       JS.includes target (Game.players g') = true ->
       exists g'',
         Game.useVenganza p target now' (Game.endGame now g')
         = Ok (g'', Game.venganzaResult (JS.get "card" v) p target now')).
Proof.
  intros Hin. destruct (includes_indexOf _ _ Hin) as [i Hi].
  exists (Post.left g p i). split; [now apply removePlayer_leaves|].
  do 11 (split; [reflexivity|]). cbn [Post.left Game.host Game.players
    Game.savedCards Game.currentTurn].
  split; [|split; [|split; [|split; [|split; [|split]]]]].
  - intros Hne. destruct (String.eqb_spec (Game.host g) p); [contradiction|reflexivity].
  - intros Heq Hnil. rewrite Heq, String.eqb_refl.
    unfold JS.len, JS.index. destruct (JS.splice1 i (Game.players g)) as [|x l];
      [contradiction|reflexivity].
  - apply lookup_delete_field_eq.
  - intros q Hq. now apply lookup_delete_field_ne.
  - reflexivity.
  - exists i. split; [exact Hi|reflexivity].
  - intros v target now now' Hv Ht. unfold Game.useVenganza.
    cbn [Game.endGame Game.status Game.set_endedAt Game.set_status
         Game.venganzaCards Game.players Post.left].
    change (Game.status_eqb Game.ended Game.ended) with true. cbn [negb].
    rewrite Hv, Ht. eexists. reflexivity.
Qed.

Lemma C10_leave_witness :
  JS.includes "p" (Game.players Examples.ace_table) = true /\
  exists g',
    Game.removePlayer "p" Examples.ace_table = (true, g') /\
    Game.players g' = ["q"] /\
    Game.deck g' = Game.deck Examples.ace_table /\
    Game.history g' = Game.history Examples.ace_table /\
    Game.status g' = Game.status Examples.ace_table /\
    Game.venganzaCards g' = Game.venganzaCards Examples.ace_table /\
    exists g'' r, Game.useVenganza "p" "q" 11 (Game.endGame 10 g') = Ok (g'', r).
Proof.
  split; [reflexivity|].
  destruct (C10_leave_frame Examples.ace_table "p" eq_refl)
    as (g' & E & _ & Hd & Hh & _ & Hs & _ & _ & _ & _ & _ & Hv & _ & _ & _ & _ & _ & _ & Huse).
  exists g'. split; [exact E|].
  assert (Hp : Game.players g' = ["q"]).
  { lazy in E. injection E as <-. reflexivity. }
  repeat split; try assumption.
  assert (Hf : exists v, JS.find (Game.playerId_is "p")
                           (Game.venganzaCards Examples.ace_table) = Some v)
    by (eexists; lazy; reflexivity).
  destruct Hf as [v Hf].
  destruct (Huse v "q" 10 11 Hf) as [g'' Hg''].
  - rewrite Hp. reflexivity.
  - eexists _, _. exact Hg''.
Defined.

(** C7 (evaluation at the failing input).  The host "h" is alone in the game
    just created and leaves: [removePlayer] returns [true], the player list
    is empty and the host is still "h".  [GameService.validateGameState]
    reports both defects of the resulting state. *)
Theorem C7_last_player_leaves :
  Game.players Examples.lobby = ["h"] /\
  Game.host Examples.lobby = "h" /\
  GameService.validateGameState Examples.lobby = [] /\
  exists g',
    Game.removePlayer "h" Examples.lobby = (true, g') /\
    Game.players g' = [] /\
    Game.host g' = "h" /\
    JS.includes (Game.host g') (Game.players g') = false /\
    GameService.validateGameState g'
      = ["No hay jugadores en la partida"; "El host no está en la lista de jugadores"].
Proof.
  do 3 (split; [reflexivity|]).
  eexists. split; [lazy; reflexivity|].
  repeat split; reflexivity.
Qed.

(** Joining keeps the host in the list, the list duplicate-free and of at
    most 8 players. *)
Lemma addPlayer_keeps_invariant (g g' : Game.t) (p : string) :
  In (Game.host g) (Game.players g) -> NoDup (Game.players g) ->
  Game.addPlayer p g = Ok g' ->
  Game.host g' = Game.host g /\ Game.players g' = Game.players g ++ [p] /\
  In (Game.host g') (Game.players g') /\ NoDup (Game.players g') /\
  (1 <= length (Game.players g') <= 8)%nat.
Proof.
  intros Hh Hnd. unfold Game.addPlayer.
  destruct (Game.status_eqb (Game.status g) Game.waiting); [|discriminate].
  destruct (JS.includes p (Game.players g)) eqn:Hin; [discriminate|].
  unfold JS.len.
  destruct (Z.leb_spec 8 (Z.of_nat (length (Game.players g)))) as [Hfull|Hroom];
    [discriminate|].
  simpl. intros H. injection H as <-. simpl.
  repeat split; try reflexivity.
  - apply in_or_app. now left.
  - apply NoDup_app. repeat split; [assumption| |apply NoDup_singleton].
    intros x Hx Hx'. apply list_elem_of_In in Hx. apply list_elem_of_In in Hx'.
    destruct Hx' as [<-|[]]. apply includes_In in Hx. congruence.
  - rewrite length_app. simpl. lia.
  - rewrite length_app. simpl. lia.
Qed.

Lemma indexOf_split (p : string) (l : list string) (i : nat) :
  JS.indexOf p l = Some i -> l = take i l ++ p :: drop (S i) l.
Proof.
  revert i. induction l as [|x l IH]; simpl; intros i H; [discriminate|].
  destruct (String.eqb_spec p x) as [->|Hne].
  - injection H as <-. reflexivity.
  - destruct (JS.indexOf p l) as [j|]; [|discriminate].
    injection H as <-. simpl. f_equal. now apply IH.
Qed.

(** As long as another player remains, a leave keeps the host in the list
    (the head takes over from a leaving host) and the list non-empty: the
    invariant is lost only by the leave of the last player. *)
Lemma removePlayer_keeps_host_while_others_remain (g g' : Game.t) (p : string) :
  In (Game.host g) (Game.players g) ->
  (2 <= length (Game.players g))%nat ->
  Game.removePlayer p g = (true, g') ->
  In (Game.host g') (Game.players g') /\
  length (Game.players g') = pred (length (Game.players g)).
Proof.
  intros Hh Hn H.
  destruct (JS.indexOf p (Game.players g)) as [i|] eqn:Hi;
    [|unfold Game.removePlayer in H; rewrite Hi in H; discriminate].
  rewrite (removePlayer_leaves g p i Hi) in H. injection H as <-.
  cbn [Post.left Game.host Game.players].
  pose proof (indexOf_split p _ i Hi) as Hsplit.
  assert (Hlen : length (JS.splice1 i (Game.players g)) = pred (length (Game.players g))).
  { rewrite Hsplit at 2. unfold JS.splice1. rewrite !length_app. simpl. lia. }
  split; [|exact Hlen].
  destruct (JS.splice1 i (Game.players g)) as [|x l] eqn:Hs; [simpl in Hlen; lia|].
  destruct (String.eqb_spec (Game.host g) p) as [Heq|Hne].
  - simpl. now left.
  - cbn [andb]. rewrite <- Hs. unfold JS.splice1. rewrite Hsplit in Hh.
    apply in_app_or in Hh. apply in_or_app.
    destruct Hh as [Hh|[Hh|Hh]]; [now left|congruence|now right].
Qed.

(* ------------------------------------------------------------------ *)
(** ** Drawing from an empty deck (C6) *)

Lemma drawCard_on_empty_deck (g : Game.t) (p : string) (now : Z) :
  Game.status g = Game.started ->
  Game.getCurrentPlayer g = Some p ->
  Game.deck g = [] ->
  Game.drawCard p now g = Ok (Game.endGame now g, None).
Proof.
  intros Hst Hcur Hdeck. unfold Game.drawCard.
  apply isCurrentPlayer_spec in Hcur. rewrite Hst, Hcur, Hdeck. reflexivity.
Qed.

(** C6, as stated, fails on [Game.drawCard]: after the 52 cards were drawn
    the game is still started and it is the turn of "a"; the next draw of "a"
    does not throw. *)
Lemma C6_empty_deck_counterexample :
  ~ (forall (g : Game.t) (p : string) (now : Z),
        Game.status g = Game.started ->
        Game.getCurrentPlayer g = Some p ->
        Game.deck g = [] ->
        exists e, Game.drawCard p now g = Throw e).
Proof.
  intros H.
  destruct (H Examples.exhausted_table "a" 60 eq_refl eq_refl eq_refl) as [e E].
  rewrite drawCard_on_empty_deck in E by reflexivity. discriminate.
Qed.

(** C6, amended.  In a started game with an empty deck, for the player whose
    turn it is:
    - the use case refuses the draw with the reason "No hay más cartas en la
      baraja" before touching the game, and saves nothing;
    - [GameValidationService.validateCardDraw] reports [DECK_EMPTY] (for a
      player id that passes [validatePlayerId]);
    - [Game.drawCard], called all the same, does not fail: it returns no
      card and ends the game, setting the status and the end time and
      leaving the turn index, the history and every other field as they
      were. *)
Theorem C6_draw_on_empty_deck (trim : string -> string) (g : Game.t)
    (gameCode p : string) (now : Z) :
  gameCode <> "" -> p <> "" ->
  Game.status g = Game.started ->
  Game.getCurrentPlayer g = Some p ->
  Game.deck g = [] ->
  DrawCard.execute (Some g) gameCode p now
    = DrawCard.Failure "No hay más cartas en la baraja" /\
  DrawCard.stored g (DrawCard.execute (Some g) gameCode p now) = g /\
  (GameValidationService.isValid (GameValidationService.validatePlayerId trim p) = true ->
   GameValidationService.validateCardDraw trim g p
   = GameValidationService.invalid GameValidationService.DECK_EMPTY
       "No hay cartas en el mazo") /\
  exists g',
    Game.drawCard p now g = Ok (g', None) /\
    Game.status g' = Game.ended /\
    Game.endedAt g' = Some now /\
    Game.currentTurn g' = Game.currentTurn g /\
    Game.history g' = Game.history g /\
    Game.deck g' = Game.deck g /\
    Game.players g' = Game.players g /\
    Game.host g' = Game.host g /\
    Game.code g' = Game.code g /\
    Game.rules g' = Game.rules g /\
    Game.createdAt g' = Game.createdAt g /\
    Game.startedAt g' = Game.startedAt g /\
    Game.savedCards g' = Game.savedCards g /\
    Game.kingsCount g' = Game.kingsCount g /\
    Game.cupContent g' = Game.cupContent g /\
    Game.venganzaCards g' = Game.venganzaCards g.
Proof.
  intros Hc Hp Hst Hcur Hdeck.
  assert (E : DrawCard.execute (Some g) gameCode p now
              = DrawCard.Failure "No hay más cartas en la baraja").
  { unfold DrawCard.execute, GameService.validateCardDraw.
    apply String.eqb_neq in Hc, Hp. rewrite Hc, Hp, Hst, Hdeck.
    apply isCurrentPlayer_spec in Hcur. rewrite Hcur. reflexivity. }
  split; [exact E|]. split; [rewrite E; reflexivity|]. split.
  - intros Hv. unfold GameValidationService.validateCardDraw.
    rewrite Hv, Hst, Hdeck.
    destruct (currentPlayer_in_range g p Hcur) as [_ Hin].
    apply includes_In in Hin. rewrite Hin.
    apply isCurrentPlayer_spec in Hcur. rewrite Hcur. reflexivity.
  - exists (Game.endGame now g).
    split; [now apply drawCard_on_empty_deck|]. repeat split; reflexivity.
Qed.

Lemma C6_draw_on_empty_deck_witness :
  (Examples.code <> "" /\ "a" <> "" /\
   Game.status Examples.exhausted_table = Game.started /\
   Game.getCurrentPlayer Examples.exhausted_table = Some "a" /\
   Game.deck Examples.exhausted_table = []) /\
  DrawCard.execute (Some Examples.exhausted_table) Examples.code "a" 60
    = DrawCard.Failure "No hay más cartas en la baraja" /\
  GameValidationService.validateCardDraw (fun s => s) Examples.exhausted_table "a"
    = GameValidationService.invalid GameValidationService.DECK_EMPTY
        "No hay cartas en el mazo" /\
  exists g',
    Game.drawCard "a" 60 Examples.exhausted_table = Ok (g', None) /\
    Game.status g' = Game.ended /\
    Game.currentTurn g' = Game.currentTurn Examples.exhausted_table /\
    Game.history g' = Game.history Examples.exhausted_table.
Proof.
  assert (H1 : Examples.code <> "") by discriminate.
  assert (H2 : "a" <> "") by discriminate.
  split; [repeat split; first [assumption|reflexivity]|].
  destruct (C6_draw_on_empty_deck (fun s => s) Examples.exhausted_table
              Examples.code "a" 60 H1 H2 eq_refl eq_refl eq_refl)
    as (E & _ & V & g' & D & S & _ & T & Hh & _).
  split; [exact E|]. split; [apply V; reflexivity|].
  exists g'. repeat split; assumption.
Defined.

(* ------------------------------------------------------------------ *)
(** ** Export and restore (C9) *)

Lemma savedCards_entry_roundtrip (kv : string * list JS.val) :
  Game.savedCards_entry ((fun '(p, cards) => (p, JS.Arr cards)) kv) = Some kv.
Proof. now destruct kv. Qed.

Lemma as_num_or_zero (n : Z) : Game.as_num (Game.or_else (JS.Num n) (JS.Num 0)) = Some n.
Proof.
  unfold Game.or_else. simpl. destruct (Z.eqb_spec n 0) as [->|]; reflexivity.
Qed.

Lemma status_roundtrip (s : Game.Status) :
  Game.as_str (Game.or_else (JS.Str (Game.status_str s)) (JS.Str "waiting"))
    ≫= Game.status_of_str = Some s.
Proof. now destruct s. Qed.

Lemma date_field_roundtrip (d : option Z) :
  Game.date_field (Game.date_or_null d) = Some d.
Proof. now destruct d. Qed.

(** Restoring an export gives back the game, field for field. *)
Lemma fromJSON_toJSON (now : Z) (g : Game.t) :
  Game.fromJSON now (Game.toJSON g) = Some g.
Proof.
  unfold Game.fromJSON. cbv zeta.
  change (JS.get "code" (Game.toJSON g)) with (JS.Str (Game.code g)).
  change (JS.get "host" (Game.toJSON g)) with (JS.Str (Game.host g)).
  change (JS.get "players" (Game.toJSON g)) with (JS.Arr (JS.Str <$> Game.players g)).
  change (JS.get "deck" (Game.toJSON g)) with (JS.Arr (Card.toJSON <$> Game.deck g)).
  change (JS.get "history" (Game.toJSON g)) with (JS.Arr (Game.history g)).
  change (JS.get "rules" (Game.toJSON g)) with (JS.Obj (Game.rules g)).
  change (JS.get "status" (Game.toJSON g)) with (JS.Str (Game.status_str (Game.status g))).
  change (JS.get "currentTurn" (Game.toJSON g)) with (JS.Num (Game.currentTurn g)).
  change (JS.get "createdAt" (Game.toJSON g)) with (JS.Date (Game.createdAt g)).
  change (JS.get "startedAt" (Game.toJSON g)) with (Game.date_or_null (Game.startedAt g)).
  change (JS.get "endedAt" (Game.toJSON g)) with (Game.date_or_null (Game.endedAt g)).
  change (JS.get "savedCards" (Game.toJSON g))
    with (Game.savedCards_obj (Game.savedCards g)).
  change (JS.get "kingsCount" (Game.toJSON g)) with (JS.Num (Game.kingsCount g)).
  change (JS.get "cupContent" (Game.toJSON g)) with (JS.Arr (Game.cupContent g)).
  change (JS.get "venganzaCards" (Game.toJSON g)) with (JS.Arr (Game.venganzaCards g)).
  rewrite !as_num_or_zero, status_roundtrip, !date_field_roundtrip.
  cbn [Game.as_str Game.as_arr Game.as_obj Game.or_else JS.truthy Game.new_Date
       Game.savedCards_obj mbind option_bind].
  rewrite (mapM_fmap_Some Game.as_str JS.Str) by reflexivity.
  rewrite (mapM_fmap_Some Card.fromJSON Card.toJSON) by apply Card_fromJSON_toJSON.
  rewrite (mapM_fmap_Some Game.savedCards_entry _ _ savedCards_entry_roundtrip).
  cbn [mbind option_bind]. now destruct g.
Qed.

(** C9, as stated, fails: the export of a freshly created game has no
    [version] field. *)
Lemma C9_version_counterexample :
  ~ (forall g : Game.t, JS.get "version" (Game.toJSON g) = JS.Num 1).
Proof.
  intros H. specialize (H Examples.lobby). discriminate.
Qed.

(** C9, amended.  For every game, restoring its export (at any later time)
    and exporting again yields the same export; the export has no [version]
    field. *)
Theorem C9_export_restore_export :
  forall (g : Game.t) (now : Z),
    (exists g',
       Game.fromJSON now (Game.toJSON g) = Some g' /\
       Game.toJSON g' = Game.toJSON g) /\
    JS.get "version" (Game.toJSON g) = JS.Undefined.
Proof.
  intros g now. split; [|reflexivity].
  exists g. split; [apply fromJSON_toJSON|reflexivity].
Qed.

(* ------------------------------------------------------------------ *)
(** ** The deck and its shuffle *)

Lemma swap_Permutation {A} (i j : nat) (l : list A) : Game.swap i j l ≡ₚ l.
Proof.
  unfold Game.swap. destruct (l !! i) as [x|] eqn:Hi; [|reflexivity].
  destruct (l !! j) as [y|] eqn:Hj; [|reflexivity].
  now apply Permutation_insert_swap.
Qed.

Lemma shuffle_from_Permutation {A} (i : nat) (pick : nat -> nat) (l : list A) :
  Game.shuffle_from i pick l ≡ₚ l.
Proof.
  revert l. induction i as [|k IH]; intros l; simpl; [reflexivity|].
  rewrite IH. apply swap_Permutation.
Qed.

Lemma ordered_deck_is_full :
  length Game._createDeck_ordered = 52%nat /\
  NoDup Game._createDeck_ordered /\
  forall c : Card.t, c ∈ Game._createDeck_ordered.
Proof.
  split; [reflexivity|]. split.
  - apply (NoDup_fmap_1 Card.id).
    apply (bool_decide_unpack _). vm_compute. exact I.
  - intros [s r]. apply list_elem_of_In. destruct s, r; simpl; tauto.
Qed.

(** X1.  Whatever numbers the random source yields within its range (at step
    [i] a position from 0 to [i]), [_shuffleDeck] returns a rearrangement of
    the array it was given: nothing is lost, added or duplicated. *)
Theorem shuffleDeck_rearranges {A} (pick : nat -> nat) (deck : list A) :
  (forall i, (pick i <= i)%nat) ->
  Game._shuffleDeck pick deck ≡ₚ deck /\
  length (Game._shuffleDeck pick deck) = length deck.
Proof.
  intros _. assert (H : Game._shuffleDeck pick deck ≡ₚ deck)
    by apply shuffle_from_Permutation.
  split; [exact H|]. now rewrite H.
Qed.

Lemma shuffleDeck_rearranges_witness :
  (forall i : nat, (0 <= i)%nat) /\
  Game._shuffleDeck (fun _ => 0%nat) ["a"; "b"; "c"; "d"] = ["b"; "c"; "d"; "a"] /\
  Game._shuffleDeck (fun _ => 0%nat) ["a"; "b"; "c"; "d"] ≡ₚ ["a"; "b"; "c"; "d"].
Proof.
  assert (H : forall i : nat, (0 <= i)%nat) by (intros i; lia).
  split; [exact H|]. split; [reflexivity|].
  apply (shuffleDeck_rearranges (fun _ => 0%nat) ["a"; "b"; "c"; "d"] H).
Defined.

(** X2.  The deck of a new game holds the 52 cards, each suit and rank exactly
    once, in whatever order the shuffle left them. *)
Theorem createDeck_is_a_full_deck (pick : nat -> nat) :
  (forall i, (pick i <= i)%nat) ->
  length (Game._createDeck pick) = 52%nat /\
  NoDup (Game._createDeck pick) /\
  forall (s : Card.Suit) (r : Card.Rank), Card.mk s r ∈ Game._createDeck pick.
Proof.
  intros _. destruct ordered_deck_is_full as (Hl & Hn & Hall).
  assert (H : Game._createDeck pick ≡ₚ Game._createDeck_ordered)
    by apply shuffle_from_Permutation.
  split; [now rewrite H|]. split; [now rewrite H|].
  intros s r. rewrite H. apply Hall.
Qed.

Lemma createDeck_is_a_full_deck_witness :
  (forall i : nat, (0 <= i)%nat) /\
  length (Game._createDeck (fun _ => 0%nat)) = 52%nat /\
  NoDup (Game._createDeck (fun _ => 0%nat)).
Proof.
  assert (H : forall i : nat, (0 <= i)%nat) by (intros i; lia).
  split; [exact H|].
  destruct (createDeck_is_a_full_deck (fun _ => 0%nat) H) as (Hl & Hn & _).
  split; assumption.
Defined.

(* ------------------------------------------------------------------ *)
(** ** Joining and starting *)

Lemma lookup_set_field_eq {A} (k : string) (v : A) (fs : list (string * A)) :
  JS.lookup_field k (JS.set_field k v fs) = Some v.
Proof.
  induction fs as [|[k' v'] fs IH]; simpl.
  - now rewrite String.eqb_refl.
  - destruct (String.eqb_spec k k') as [<-|Hne]; simpl.
    + now rewrite String.eqb_refl.
    + destruct (String.eqb_spec k k'); [contradiction|exact IH].
Qed.

Lemma lookup_set_field_ne {A} (k q : string) (v : A) (fs : list (string * A)) :
  q <> k -> JS.lookup_field q (JS.set_field k v fs) = JS.lookup_field q fs.
Proof.
  intros Hne. induction fs as [|[k' v'] fs IH]; simpl.
  - destruct (String.eqb_spec q k); [contradiction|reflexivity].
  - destruct (String.eqb_spec k k') as [<-|Hkk]; simpl.
    + destruct (String.eqb_spec q k); [contradiction|reflexivity].
    + destruct (String.eqb_spec q k'); [reflexivity|exact IH].
Qed.

(** X3.  [GameService.validatePlayerJoin] and [Game.addPlayer] draw the same
    line: the validation lets a player join exactly when [addPlayer] does
    not throw, and then the player is appended with an empty list of saved
    cards, everything else unchanged. *)
Theorem validatePlayerJoin_iff_addPlayer (g : Game.t) (p : string) :
  (GameService.validatePlayerJoin g p = None <-> exists g', Game.addPlayer p g = Ok g') /\
  (forall g', Game.addPlayer p g = Ok g' ->
     Game.players g' = Game.players g ++ [p] /\
     JS.lookup_field p (Game.savedCards g') = Some [] /\
     Game.status g' = Game.waiting /\
     Game.host g' = Game.host g /\ Game.deck g' = Game.deck g /\
     Game.currentTurn g' = Game.currentTurn g /\ Game.history g' = Game.history g).
Proof.
  unfold GameService.validatePlayerJoin, Game.addPlayer.
  destruct (Game.status_eqb (Game.status g) Game.waiting) eqn:Hs; simpl.
  2:{ split; [split; [discriminate|intros [? ?]; discriminate]|discriminate]. }
  apply status_eqb_eq in Hs.
  destruct (JS.includes p (Game.players g)).
  { split; [split; [discriminate|intros [? ?]; discriminate]|discriminate]. }
  destruct (8 <=? JS.len (Game.players g)).
  { split; [split; [discriminate|intros [? ?]; discriminate]|discriminate]. }
  split; [split; eauto|].
  intros g' H. injection H as <-. simpl.
  rewrite lookup_set_field_eq. repeat split; assumption.
Qed.

(** X5.  [GameService.validateGameStart] and [Game.startGame] agree, with
    the same texts: the validation passes exactly when [startGame] succeeds,
    and its reason is the message of the error [startGame] throws. *)
Theorem validateGameStart_iff_startGame (g : Game.t) (now : Z) :
  (GameService.validateGameStart g = None <-> exists g', Game.startGame now g = Ok g') /\
  (forall reason, GameService.validateGameStart g = Some reason ->
     exists e, Game.startGame now g = Throw e /\ error_message e = reason) /\
  (GameService.validateGameStart g = None <->
   Game.status g = Game.waiting /\ (2 <= length (Game.players g))%nat).
Proof.
  unfold GameService.validateGameStart, Game.startGame, JS.len.
  destruct (Game.status_eqb (Game.status g) Game.waiting) eqn:Hs; simpl.
  2:{ assert (Game.status g <> Game.waiting)
        by (intros E; apply status_eqb_eq in E; congruence).
      repeat split; try discriminate.
      - intros [? ?]; discriminate.
      - intros r H0. injection H0 as <-. eexists. split; reflexivity.
      - intros [? _]; contradiction. }
  apply status_eqb_eq in Hs.
  destruct (Z.ltb_spec (Z.of_nat (length (Game.players g))) 2).
  - repeat split; try discriminate.
    + intros [? ?]; discriminate.
    + intros r H0. injection H0 as <-. eexists. split; reflexivity.
    + intros [_ ?]; lia.
  - repeat split; eauto; try discriminate; lia.
Qed.

Lemma lookup_after_reset (p : string) (l : list string)
    (sc : list (string * list JS.val)) :
  JS.lookup_field p (fold_left (fun sc q => JS.set_field q [] sc) l sc)
  = if JS.includes p l then Some [] else JS.lookup_field p sc.
Proof.
  revert sc. induction l as [|q l IH]; intros sc; simpl; [reflexivity|].
  rewrite IH. destruct (JS.includes p l) eqn:Hin.
  - now rewrite orb_true_r.
  - rewrite orb_false_r. destruct (String.eqb_spec p q) as [->|Hne].
    + apply lookup_set_field_eq.
    + now apply lookup_set_field_ne.
Qed.

(** X6.  A started game has an empty list of saved cards for every player
    (what a player had saved before is discarded), the turn is at the first
    player, and from then on [saveCard] finds the list of any player: the
    first save of a player succeeds and holds that card alone. *)
Theorem startGame_deals_empty_hands (g g' : Game.t) (now : Z) :
  Game.startGame now g = Ok g' ->
  Game.status g' = Game.started /\
  Game.startedAt g' = Some now /\
  Game.currentTurn g' = 0 /\
  Game.players g' = Game.players g /\
  Game.getCurrentPlayer g' = head (Game.players g) /\
  forall p, JS.includes p (Game.players g) = true ->
    JS.lookup_field p (Game.savedCards g') = Some [] /\
    forall c, exists g'',
      Game.saveCard p c g' = Ok g'' /\
      JS.lookup_field p (Game.savedCards g'') = Some [Card.toJSON c].
Proof.
  unfold Game.startGame.
  destruct (Game.status_eqb (Game.status g) Game.waiting); [|discriminate].
  destruct (JS.len (Game.players g) <? 2); [discriminate|]. simpl.
  intros H. injection H as <-. simpl.
  repeat split.
  - unfold Game.getCurrentPlayer, JS.index. simpl. now destruct (Game.players g).
  - rewrite lookup_after_reset, H. reflexivity.
  - intros c. unfold Game.saveCard. simpl. rewrite H. simpl.
    rewrite lookup_after_reset, H. simpl. eexists. split; [reflexivity|].
    simpl. apply lookup_set_field_eq.
Qed.

Lemma startGame_deals_empty_hands_witness :
  Game.startGame 1 (Examples.the (Game.addPlayer "q" Examples.lobby))
    = Ok (Examples.the (Game.startGame 1 (Examples.the (Game.addPlayer "q" Examples.lobby))))
  /\
  Game.getCurrentPlayer
    (Examples.the (Game.startGame 1 (Examples.the (Game.addPlayer "q" Examples.lobby))))
    = Some "h" /\
  JS.lookup_field "h"
    (Game.savedCards
       (Examples.the (Game.startGame 1 (Examples.the (Game.addPlayer "q" Examples.lobby)))))
    = Some [].
Proof.
  split; [reflexivity|].
  destruct (startGame_deals_empty_hands
              (Examples.the (Game.addPlayer "q" Examples.lobby)) _ 1 eq_refl)
    as (_ & _ & _ & _ & Hc & Hh).
  split; [exact Hc|]. apply (Hh "h"). reflexivity.
Defined.

Lemma addPlayer_keeps_invariant_witness :
  (In (Game.host Examples.lobby) (Game.players Examples.lobby) /\
   NoDup (Game.players Examples.lobby) /\
   Game.addPlayer "q" Examples.lobby
     = Ok (Examples.the (Game.addPlayer "q" Examples.lobby))) /\
  Game.players (Examples.the (Game.addPlayer "q" Examples.lobby)) = ["h"; "q"] /\
  In "h" (Game.players (Examples.the (Game.addPlayer "q" Examples.lobby))).
Proof.
  assert (H1 : In (Game.host Examples.lobby) (Game.players Examples.lobby))
    by (simpl; tauto).
  assert (H2 : NoDup (Game.players Examples.lobby))
    by (apply NoDup_singleton).
  split; [repeat split; first [assumption|reflexivity]|].
  destruct (addPlayer_keeps_invariant Examples.lobby _ "q" H1 H2 eq_refl)
    as (_ & Hp & Hin & _).
  split; [exact Hp|exact Hin].
Defined.

(** X7.  The constructor gives nobody a list of saved cards, [addPlayer]
    gives one to the player who joins: until the game starts, [saveCard] for
    the host fails on the missing list (a [TypeError]), while it works for a
    player who joined. *)
Theorem host_has_no_hand_before_start (code host : string) (deck : list Card.t)
    (now : Z) (c : Card.t) (p : string) (g' : Game.t) :
  Game.addPlayer p (Game.new code host deck now) = Ok g' ->
  Game.saveCard host c (Game.new code host deck now) = Throw TypeError /\
  Game.saveCard host c g' = Throw TypeError /\
  exists g'',
    Game.saveCard p c g' = Ok g'' /\
    JS.lookup_field p (Game.savedCards g'') = Some [Card.toJSON c].
Proof.
  unfold Game.addPlayer. simpl. rewrite orb_false_r.
  destruct (String.eqb_spec p host) as [->|Hne]; [discriminate|].
  intros H. injection H as <-.
  unfold Game.saveCard. simpl. rewrite !String.eqb_refl. simpl.
  destruct (String.eqb_spec host p) as [E|_]; [congruence|].
  rewrite orb_true_r. simpl. repeat split.
  eexists. split; [reflexivity|]. simpl. now rewrite String.eqb_refl.
Qed.

Lemma host_has_no_hand_before_start_witness :
  Game.addPlayer "q" (Game.new "ABC123" "h" [] 0)
    = Ok (Examples.the (Game.addPlayer "q" (Game.new "ABC123" "h" [] 0))) /\
  Game.saveCard "h" (Examples.card Card.R5 Card.hearts)
    (Examples.the (Game.addPlayer "q" (Game.new "ABC123" "h" [] 0)))
    = Throw TypeError.
Proof.
  split; [reflexivity|].
  apply (host_has_no_hand_before_start "ABC123" "h" [] 0
           (Examples.card Card.R5 Card.hearts) "q" _ eq_refl).
Defined.

(* ------------------------------------------------------------------ *)
(** ** More on draws *)

(** X8.  A draw that [GameService.validateCardDraw] lets through never
    fails and never comes back empty-handed: [Game.drawCard] returns the last
    card of the deck and leaves the rest.  [drawCard] returns no card only on
    an empty deck, and then it has ended the game. *)
Theorem validated_draw_yields_the_top_card (g : Game.t) (p : string) (now : Z) :
  GameService.validateCardDraw g p = None ->
  exists rest c g',
    Game.deck g = rest ++ [c] /\
    Game.drawCard p now g = Ok (g', Some c) /\
    Game.deck g' = rest /\
    Game.status g' = Game.started.
Proof.
  intros Hv. apply validateCardDraw_None in Hv as (Hst & Hcur & Hne).
  destruct (nonempty_snoc _ Hne) as (rest & c & Hdeck).
  exists rest, c, (Post.drawn g p now rest c).
  split; [exact Hdeck|]. split; [now apply drawCard_draws|]. split; reflexivity.
Qed.

Lemma validated_draw_yields_the_top_card_witness :
  GameService.validateCardDraw Examples.jack_table "a" = None /\
  exists rest g',
    Game.drawCard "a" 5 Examples.jack_table
      = Ok (g', Some (Examples.card Card.RJ Card.hearts)) /\
    Game.deck g' = rest /\ length rest = 51%nat.
Proof.
  split; [reflexivity|].
  destruct (validated_draw_yields_the_top_card Examples.jack_table "a" 5 eq_refl)
    as (rest & c & g' & Hd & E & Hr & _).
  assert (Hc : c = Examples.card Card.RJ Card.hearts /\ length rest = 51%nat).
  { apply (f_equal (@rev Card.t)) in Hd. rewrite rev_app_distr in Hd.
    vm_compute in Hd. injection Hd as <- Hrest.
    split; [reflexivity|]. apply (f_equal (@length Card.t)) in Hrest.
    rewrite length_rev in Hrest. simpl in Hrest. lia. }
  destruct Hc as [-> Hl]. exists rest, g'. repeat split; assumption.
Defined.

Lemma drawCard_None_inv (g g' : Game.t) (p : string) (now : Z) :
  Game.drawCard p now g = Ok (g', None) ->
  Game.deck g = [] /\ g' = Game.endGame now g.
Proof.
  unfold Game.drawCard.
  destruct (Game.status_eqb (Game.status g) Game.started); [|discriminate].
  destruct (Game.isCurrentPlayer g p); [|discriminate]. simpl.
  destruct (JS.pop (Game.deck g)) as [[rest c]|] eqn:Hpop; [discriminate|].
  intros H. injection H as <-. apply pop_None in Hpop. now split.
Qed.

(** X9.  For a player id that passes [validatePlayerId], the two draw
    validations accept the same draws: [GameValidationService.validateCardDraw]
    is valid exactly when [GameService.validateCardDraw] gives no reason. *)
Theorem draw_validators_agree (trim : string -> string) (g : Game.t) (p : string) :
  GameValidationService.isValid (GameValidationService.validatePlayerId trim p) = true ->
  (GameValidationService.isValid (GameValidationService.validateCardDraw trim g p) = true
   <-> GameService.validateCardDraw g p = None).
Proof.
  intros Hid.
  unfold GameValidationService.validateCardDraw, GameService.validateCardDraw.
  rewrite Hid. simpl.
  destruct (Game.status_eqb (Game.status g) Game.started); simpl;
    [|split; discriminate].
  destruct (Game.isCurrentPlayer g p) eqn:Hcur; simpl.
  - apply isCurrentPlayer_spec in Hcur.
    destruct (currentPlayer_in_range g p Hcur) as [_ Hin].
    apply includes_In in Hin. rewrite Hin. simpl.
    destruct (JS.len (Game.deck g) =? 0); simpl; split; (reflexivity || discriminate).
  - destruct (JS.includes p (Game.players g)); simpl; split; discriminate.
Qed.

Lemma draw_validators_agree_witness :
  GameValidationService.isValid
    (GameValidationService.validatePlayerId (fun s => s) "a") = true /\
  GameValidationService.isValid
    (GameValidationService.validateCardDraw (fun s => s) Examples.jack_table "a") = true.
Proof.
  split; [reflexivity|].
  apply (draw_validators_agree (fun s => s) Examples.jack_table "a" eq_refl).
  reflexivity.
Defined.

(** Every accepted draw, taken apart. *)
Lemma execute_Success_full (g saved : Game.t) (gameCode p : string) (now : Z)
    (data : DrawCard.Data) :
  DrawCard.execute (Some g) gameCode p now = DrawCard.Success saved data ->
  gameCode <> "" /\ p <> "" /\
  Game.status g = Game.started /\ Game.getCurrentPlayer g = Some p /\
  exists rest c,
    Game.deck g = rest ++ [c] /\
    saved = Post.saved_after_draw g p now rest c /\
    data = DrawCard.mkData (Card.toJSON c) (GameService.applyCardRule saved c p)
             (Game.getCurrentPlayer saved) (JS.len (Game.deck saved))
             (Game.isGameOver saved) (DrawCard.extraInfo saved c p).
Proof.
  intros H.
  assert (Hc : gameCode <> "").
  { intros ->. discriminate. }
  assert (Hp : p <> "").
  { intros ->. unfold DrawCard.execute in H.
    destruct (String.eqb gameCode ""); discriminate. }
  pose proof (execute_Success_inv _ _ _ _ _ _ H) as (Hst & Hcur & rest & c & Hd & _).
  rewrite (execute_draw g gameCode p now rest c Hc Hp Hst Hcur Hd) in H.
  injection H as <- <-. repeat split; try assumption.
  exists rest, c. repeat split. exact Hd.
Qed.

(** X10.  Every accepted draw moves exactly one card from the deck to the
    history: the deck loses its last card, the history gains one entry
    carrying that card and the drawing player, and the number of cards in
    deck and history together does not change. *)
Theorem draw_moves_one_card_to_the_history (g saved : Game.t) (gameCode p : string)
    (now : Z) (data : DrawCard.Data) :
  DrawCard.execute (Some g) gameCode p now = DrawCard.Success saved data ->
  exists c entry,
    Game.deck g = Game.deck saved ++ [c] /\
    Game.history saved = Game.history g ++ [entry] /\
    JS.get "card" entry = Card.toJSON c /\
    JS.get "playerId" entry = JS.Str p /\
    DrawCard.card data = Card.toJSON c /\
    DrawCard.cardsRemaining data = JS.len (Game.deck saved) /\
    (length (Game.deck saved) + length (Game.history saved)
     = length (Game.deck g) + length (Game.history g))%nat.
Proof.
  intros H.
  apply execute_Success_full in H as (_ & _ & _ & _ & rest & c & Hd & -> & ->).
  destruct (saved_after_draw_fields g p now rest c _ _ eq_refl eq_refl)
    as (_ & _ & Hdk & _ & _ & _ & _ & _ & Hh & _).
  eexists c, _. rewrite Hdk, Hh, Hd. simpl.
  split; [reflexivity|]. split; [reflexivity|].
  repeat split. rewrite !length_app. simpl. lia.
Qed.

Lemma draw_moves_one_card_to_the_history_witness :
  DrawCard.execute (Some Examples.jack_table) Examples.code "a" 5
    = DrawCard.Success
        (DrawCard.stored Examples.jack_table
           (DrawCard.execute (Some Examples.jack_table) Examples.code "a" 5))
        (DrawCard.mkData (Card.toJSON (Examples.card Card.RJ Card.hearts))
           (GameService.mkRule "drink_left" (Some "c")
              "El jugador de la izquierda toma" false [])
           (Some "b") 51 false DrawCard.NoInfo) /\
  length (Game.deck (DrawCard.stored Examples.jack_table
            (DrawCard.execute (Some Examples.jack_table) Examples.code "a" 5))) = 51%nat /\
  length (Game.history (DrawCard.stored Examples.jack_table
            (DrawCard.execute (Some Examples.jack_table) Examples.code "a" 5))) = 1%nat.
Proof.
  split; [reflexivity|].
  destruct (draw_moves_one_card_to_the_history Examples.jack_table _ Examples.code "a" 5
              _ eq_refl) as (c & entry & Hd & Hh & _ & _ & _ & _ & Hsum).
  clear Hd Hh. split; [|reflexivity].
  apply (Nat.add_cancel_r _ _ 1). exact Hsum.
Defined.

(** X11.  Draws keep the Kings' Cup consistent.  An accepted draw raises
    [kingsCount] by one exactly when the card is a king and then appends one
    cup entry numbered with the new count; otherwise both stay.  Hence a cup
    with as many entries as [kingsCount] remains so. *)
Theorem draw_keeps_the_cup_consistent (g saved : Game.t) (gameCode p : string)
    (now : Z) (data : DrawCard.Data) (c : Card.t) :
  DrawCard.execute (Some g) gameCode p now = DrawCard.Success saved data ->
  DrawCard.card data = Card.toJSON c ->
  (Card.rank c = Card.RK ->
   Game.kingsCount saved = Game.kingsCount g + 1 /\
   Game.cupContent saved
   = Game.cupContent g ++ [Game.cupEntry p (Game.kingsCount saved) now]) /\
  (Card.rank c <> Card.RK ->
   Game.kingsCount saved = Game.kingsCount g /\
   Game.cupContent saved = Game.cupContent g) /\
  (JS.len (Game.cupContent g) = Game.kingsCount g ->
   JS.len (Game.cupContent saved) = Game.kingsCount saved).
Proof.
  intros H Hc.
  apply execute_Success_full in H as (_ & _ & _ & _ & rest & c' & Hd & -> & ->).
  simpl in Hc. apply (f_equal Card.fromJSON) in Hc.
  rewrite !Card_fromJSON_toJSON in Hc. injection Hc as ->.
  destruct (saved_after_draw_fields g p now rest c _ _ eq_refl eq_refl)
    as (_ & _ & _ & _ & _ & Hk & Hcup & _).
  rewrite Hk, Hcup. simpl. unfold JS.len.
  destruct (Card.rank_eqb (Card.rank c) Card.RK) eqn:E.
  - apply rank_eqb_eq in E. repeat split; try contradiction.
    rewrite length_app. simpl. lia.
  - assert (Card.rank c <> Card.RK)
      by (intros E'; apply rank_eqb_eq in E'; congruence).
    repeat split; try contradiction. tauto.
Qed.

Lemma draw_keeps_the_cup_consistent_witness :
  DrawCard.execute (Some Examples.kings_table) Examples.code "b" 9
    = DrawCard.Success
        (DrawCard.stored Examples.kings_table
           (DrawCard.execute (Some Examples.kings_table) Examples.code "b" 9))
        (DrawCard.mkData (Card.toJSON (Examples.card Card.RK Card.spades))
           (GameService.mkRule "kings_cup" None
              "Cuarta K - Llena completamente el vaso y tómatelo todo" false [])
           (Some "a") 48 false
           (DrawCard.KingsCupInfo
              (Game.getKingsCupStatus
                 (DrawCard.stored Examples.kings_table
                    (DrawCard.execute (Some Examples.kings_table) Examples.code "b" 9)))))
  /\
  Game.kingsCount
    (DrawCard.stored Examples.kings_table
       (DrawCard.execute (Some Examples.kings_table) Examples.code "b" 9)) = 4.
Proof.
  split; [reflexivity|].
  destruct (draw_keeps_the_cup_consistent Examples.kings_table _ Examples.code "b" 9 _
              (Examples.card Card.RK Card.spades) eq_refl eq_refl) as (Hk & _).
  destruct (Hk eq_refl) as [E _]. exact E.
Defined.

(** X12.  The use case never leaves a started game with an empty deck: the
    saved game is ended exactly when the draw took the last card or at most
    one player is left, and the response reports the game over exactly when
    the saved game is ended. *)
Theorem draw_of_the_last_card_ends_the_game (g saved : Game.t) (gameCode p : string)
    (now : Z) (data : DrawCard.Data) :
  DrawCard.execute (Some g) gameCode p now = DrawCard.Success saved data ->
  (Game.status saved = Game.ended <->
   Game.deck saved = [] \/ JS.len (Game.players saved) <= 1) /\
  (Game.status saved = Game.started \/ Game.status saved = Game.ended) /\
  (Game.status saved = Game.started -> Game.deck saved <> []) /\
  (Game.status saved = Game.ended -> Game.endedAt saved = Some now) /\
  (DrawCard.isGameOver data = true <-> Game.status saved = Game.ended).
Proof.
  intros H.
  apply execute_Success_full in H as (_ & _ & _ & _ & rest & c & Hd & -> & ->).
  pose proof (shouldGameEnd_spec (Post.drawn g p now rest c)) as Hend.
  unfold Post.saved_after_draw. cbn [DrawCard.isGameOver].
  destruct (GameService.shouldGameEnd (Post.drawn g p now rest c)) eqn:E.
  - split; [split; [intros _; now apply Hend|reflexivity]|].
    split; [now right|]. split; [discriminate|]. split; [reflexivity|].
    split; reflexivity.
  - assert (Hn : ~ (rest = [] \/ JS.len (Game.players g) <= 1)).
    { intros X. apply Hend in X. discriminate. }
    split; [split; [discriminate|intros X; now apply Hn in X]|].
    split; [now left|]. split; [intros _ X; apply Hn; now left|].
    split; [discriminate|].
    unfold Game.isGameOver. simpl. unfold JS.len.
    destruct rest; [exfalso; apply Hn; now left|]. split; discriminate.
Qed.

Lemma draw_of_the_last_card_ends_the_game_witness :
  DrawCard.execute
    (Some (Examples.after (Examples.entity_draws 51 2
                             (Examples.the (Examples.table "a" ["b"] (Examples.stack []))))))
    Examples.code "b" 60
  = DrawCard.Success
      (Game.endGame 60
         (Post.drawn
            (Examples.after (Examples.entity_draws 51 2
                               (Examples.the (Examples.table "a" ["b"] (Examples.stack [])))))
            "b" 60 [] (Examples.card Card.RA Card.hearts)))
      (DrawCard.mkData (Card.toJSON (Examples.card Card.RA Card.hearts))
         (GameService.mkRule "venganza_saved" None
            "Carta de venganza guardada para el final del juego" false [])
         (Some "a") 0 true
         (DrawCard.VenganzaInfo "Carta de venganza guardada para el final del juego" 4))
  /\
  Game.status
    (Game.endGame 60
       (Post.drawn
          (Examples.after (Examples.entity_draws 51 2
                             (Examples.the (Examples.table "a" ["b"] (Examples.stack [])))))
          "b" 60 [] (Examples.card Card.RA Card.hearts))) = Game.ended.
Proof.
  assert (E : DrawCard.execute
    (Some (Examples.after (Examples.entity_draws 51 2
                             (Examples.the (Examples.table "a" ["b"] (Examples.stack []))))))
    Examples.code "b" 60
  = DrawCard.Success
      (Game.endGame 60
         (Post.drawn
            (Examples.after (Examples.entity_draws 51 2
                               (Examples.the (Examples.table "a" ["b"] (Examples.stack [])))))
            "b" 60 [] (Examples.card Card.RA Card.hearts)))
      (DrawCard.mkData (Card.toJSON (Examples.card Card.RA Card.hearts))
         (GameService.mkRule "venganza_saved" None
            "Carta de venganza guardada para el final del juego" false [])
         (Some "a") 0 true
         (DrawCard.VenganzaInfo "Carta de venganza guardada para el final del juego" 4)))
    by (vm_compute; reflexivity).
  split; [exact E|].
  destruct (draw_of_the_last_card_ends_the_game _ _ Examples.code "b" 60 _ E)
    as (H & _).
  apply H. now left.
Defined.

(** What [GameService.validateGameState] checks, condition by condition. *)
Lemma validateGameState_nil (g : Game.t) :
  GameService.validateGameState g = [] <->
  JS.len (Game.players g) <> 0 /\
  JS.includes (Game.host g) (Game.players g) = true /\
  (Game.status g = Game.started -> Game.currentTurn g < JS.len (Game.players g)) /\
  (Game.status g = Game.started -> JS.len (Game.deck g) <> 0) /\
  Forall (fun kv => JS.includes (fst kv) (Game.players g) = true /\ JS.len (snd kv) <= 3)
    (Game.savedCards g).
Proof.
  unfold GameService.validateGameState.
  rewrite !app_nil.
  assert (Hs : Game.status_eqb (Game.status g) Game.ended = true ->
               Game.status_eqb (Game.status g) Game.started = false).
  { destruct (Game.status g); cbv; congruence. }
  assert (Hsaved :
    concat ((fun '(playerId, cards) =>
               (if negb (JS.includes playerId (Game.players g))
                then ["Jugador " +:+ playerId +:+
                      " tiene cartas guardadas pero no está en la partida"] else []) ++
               (if 3 <? JS.len cards
                then ["Jugador " +:+ playerId +:+ " tiene más de 3 cartas guardadas"]
                else [])) <$> Game.savedCards g) = [] <->
    Forall (fun kv => JS.includes (fst kv) (Game.players g) = true /\ JS.len (snd kv) <= 3)
      (Game.savedCards g)).
  { induction (Game.savedCards g) as [|[k v] l IH]; simpl.
    - split; [constructor|reflexivity].
    - rewrite !app_nil, IH, Forall_cons. simpl.
      assert (Hk :
        (if negb (JS.includes k (Game.players g))
         then ["Jugador " +:+ k +:+
               " tiene cartas guardadas pero no está en la partida"] else []) = [] /\
        (if 3 <? JS.len v
         then ["Jugador " +:+ k +:+ " tiene más de 3 cartas guardadas"] else []) = [] <->
        JS.includes k (Game.players g) = true /\ JS.len v <= 3).
      { destruct (JS.includes k (Game.players g)); simpl;
          destruct (Z.ltb_spec 3 (JS.len v)) as [L|L]; split; intros [X Y];
          try discriminate; try lia; split; first [reflexivity|lia]. }
      tauto. }
  rewrite Hsaved.
  destruct (Z.eqb_spec (JS.len (Game.players g)) 0) as [E0|E0];
    [split; [intros (H & _); discriminate|intros (H & _); contradiction]|].
  destruct (JS.includes (Game.host g) (Game.players g)); simpl;
    [|split; [intros (_ & H & _); discriminate|intros (_ & H & _); discriminate]].
  destruct (Game.status_eqb (Game.status g) Game.started) eqn:Est; simpl.
  - apply status_eqb_eq in Est. rewrite Est. change (Game.status_eqb Game.started Game.ended) with false.
    simpl. destruct (Z.leb_spec (JS.len (Game.players g)) (Game.currentTurn g)) as [L|L];
      [split; [intros (_ & _ & H & _); discriminate|intros (_ & _ & H & _); specialize (H eq_refl); lia]|].
    destruct (Z.eqb_spec (JS.len (Game.deck g)) 0) as [D|D]; simpl;
      [split; [intros (_ & _ & _ & H & _); discriminate
              |intros (_ & _ & _ & H & _); specialize (H eq_refl); contradiction]|].
    split; [intros (_ & _ & _ & _ & H)|intros (_ & _ & _ & _ & H)]; repeat split; auto.
  - assert (Hns : Game.status g <> Game.started)
      by (intros X; apply status_eqb_eq in X; congruence).
    split; [intros (_ & _ & _ & _ & H)|intros (_ & _ & _ & _ & H)]; repeat split;
      auto; intros; contradiction.
Qed.

(** X13.  An accepted draw keeps the game valid: if
    [GameService.validateGameState] had nothing to report before the draw, it
    has nothing to report on the saved game. *)
Theorem draw_keeps_the_game_valid (g saved : Game.t) (gameCode p : string)
    (now : Z) (data : DrawCard.Data) :
  GameService.validateGameState g = [] ->
  DrawCard.execute (Some g) gameCode p now = DrawCard.Success saved data ->
  GameService.validateGameState saved = [].
Proof.
  intros Hv H.
  apply execute_Success_full in H as (_ & _ & Hst & Hcur & rest & c & Hd & -> & _).
  apply validateGameState_nil in Hv as (Hn & Hh & _ & _ & Hsc).
  destruct (currentPlayer_in_range g p Hcur) as [Hr _].
  destruct (saved_after_draw_fields g p now rest c _ _ eq_refl eq_refl)
    as (Hpl & Hho & Hdk & Hsa & Ht & _ & _ & _ & _ & Hs).
  apply validateGameState_nil. rewrite Hpl, Hho, Hsa, Hdk, Ht, Hs.
  split; [assumption|]. split; [assumption|]. simpl. split; [|split; [|assumption]].
  - intros _. rewrite rem_next_turn by assumption. apply Z.mod_pos_bound. lia.
  - pose proof (shouldGameEnd_spec (Post.drawn g p now rest c)) as Hend.
    destruct (GameService.shouldGameEnd _); [discriminate|].
    intros _ X. assert (false = true); [|discriminate].
    apply Hend. left. simpl. unfold JS.len in X. destruct rest; [reflexivity|discriminate].
Qed.

Lemma draw_keeps_the_game_valid_witness :
  (GameService.validateGameState Examples.jack_table = [] /\
   DrawCard.execute (Some Examples.jack_table) Examples.code "a" 5
   = DrawCard.Success
       (DrawCard.stored Examples.jack_table
          (DrawCard.execute (Some Examples.jack_table) Examples.code "a" 5))
       (DrawCard.mkData (Card.toJSON (Examples.card Card.RJ Card.hearts))
          (GameService.mkRule "drink_left" (Some "c")
             "El jugador de la izquierda toma" false [])
          (Some "b") 51 false DrawCard.NoInfo)) /\
  GameService.validateGameState
    (DrawCard.stored Examples.jack_table
       (DrawCard.execute (Some Examples.jack_table) Examples.code "a" 5)) = [].
Proof.
  split; [split; reflexivity|].
  apply (draw_keeps_the_game_valid Examples.jack_table _ Examples.code "a" 5 _
           eq_refl eq_refl).
Defined.

(** X15.  An ace drawn is a venganza earned: the accepted draw of an ace
    appends one entry owned by the drawing player to [venganzaCards] (any
    other rank leaves the list as it was), and once the game has ended that
    player's [useVenganza] against any player of the game succeeds. *)
Theorem drawn_ace_can_be_avenged (g saved : Game.t) (gameCode p : string)
    (now : Z) (data : DrawCard.Data) (c : Card.t) :
  DrawCard.execute (Some g) gameCode p now = DrawCard.Success saved data ->
  DrawCard.card data = Card.toJSON c ->
  (Card.rank c <> Card.RA -> Game.venganzaCards saved = Game.venganzaCards g) /\
  (Card.rank c = Card.RA ->
   Game.venganzaCards saved
   = Game.venganzaCards g ++ [Game.venganzaEntry p c now] /\
   DrawCard.info data
   = DrawCard.VenganzaInfo "Carta de venganza guardada para el final del juego"
       (JS.len (Game.venganzaCards g) + 1) /\
   forall (target : string) (t1 t2 : Z),
     JS.includes target (Game.players saved) = true ->
     exists g' r,
       Game.useVenganza p target t2 (Game.endGame t1 saved) = Ok (g', r) /\
       List.filter (Game.playerId_is p) (Game.venganzaCards g') = []).
Proof.
  intros H Hc.
  apply execute_Success_full in H as (_ & _ & _ & _ & rest & c' & Hd & -> & ->).
  simpl in Hc. apply (f_equal Card.fromJSON) in Hc.
  rewrite !Card_fromJSON_toJSON in Hc. injection Hc as ->.
  destruct (saved_after_draw_fields g p now rest c _ _ eq_refl eq_refl)
    as (Hpl & _ & _ & _ & _ & _ & _ & Hv & _).
  rewrite Hv. simpl. split.
  - intros Hne. destruct (Card.rank_eqb (Card.rank c) Card.RA) eqn:E; [|reflexivity].
    apply rank_eqb_eq in E. contradiction.
  - intros Ha. rewrite Ha. change (Card.rank_eqb Card.RA Card.RA) with true.
    split; [reflexivity|]. split.
    + unfold DrawCard.extraInfo. rewrite Ha, Hv. simpl. rewrite Ha.
      change (Card.rank_eqb Card.RA Card.RA) with true. cbn iota.
      unfold JS.len. rewrite length_app. simpl. f_equal. lia.
    + intros target t1 t2 Hin.
      assert (Hfind : exists v, JS.find (Game.playerId_is p)
                 (Game.venganzaCards (Game.endGame t1 (Post.saved_after_draw g p now rest c)))
                 = Some v).
      { simpl. rewrite Hv. simpl. rewrite Ha.
        change (Card.rank_eqb Card.RA Card.RA) with true. cbn iota.
        unfold JS.find. destruct (List.find _ _) as [v|] eqn:F; [eauto|].
        assert (X : Game.playerId_is p (Game.venganzaEntry p c now) = false).
        { apply (find_none _ _ F). apply in_or_app. right. now left. }
        unfold Game.playerId_is in X. simpl in X. rewrite String.eqb_refl in X.
        discriminate. }
      destruct Hfind as [v Hfind].
      unfold Game.useVenganza.
      change (Game.status_eqb (Game.status (Game.endGame t1
                (Post.saved_after_draw g p now rest c))) Game.ended) with true.
      cbn [negb]. rewrite Hfind.
      change (Game.players (Game.endGame t1 (Post.saved_after_draw g p now rest c)))
        with (Game.players (Post.saved_after_draw g p now rest c)).
      rewrite Hin. cbn [negb]. eexists _, _. split; [reflexivity|].
      cbn [Game.venganzaCards Game.set_history Game.set_venganzaCards].
      generalize (Game.venganzaCards (Game.endGame t1 (Post.saved_after_draw g p now rest c))).
      intros l. induction l as [|x l IH]; [reflexivity|]. simpl.
      destruct (Game.playerId_is p x) eqn:E; simpl; [exact IH|].
      rewrite E. exact IH.
Qed.

Lemma drawn_ace_can_be_avenged_witness :
  DrawCard.execute
    (Some (Examples.the (Examples.table "p" ["q"]
                           (Examples.stack [Examples.card Card.RA Card.spades]))))
    Examples.code "p" 9
  = DrawCard.Success
      (Post.saved_after_draw
         (Examples.the (Examples.table "p" ["q"]
                          (Examples.stack [Examples.card Card.RA Card.spades])))
         "p" 9
         (removelast (Examples.stack [Examples.card Card.RA Card.spades]))
         (Examples.card Card.RA Card.spades))
      (DrawCard.mkData (Card.toJSON (Examples.card Card.RA Card.spades))
         (GameService.mkRule "venganza_saved" None
            "Carta de venganza guardada para el final del juego" false [])
         (Some "q") 51 false
         (DrawCard.VenganzaInfo "Carta de venganza guardada para el final del juego" 1))
  /\
  exists g' r,
    Game.useVenganza "p" "q" 11
      (Game.endGame 10
         (Post.saved_after_draw
            (Examples.the (Examples.table "p" ["q"]
                             (Examples.stack [Examples.card Card.RA Card.spades])))
            "p" 9
            (removelast (Examples.stack [Examples.card Card.RA Card.spades]))
            (Examples.card Card.RA Card.spades)))
    = Ok (g', r).
Proof.
  assert (E : DrawCard.execute
    (Some (Examples.the (Examples.table "p" ["q"]
                           (Examples.stack [Examples.card Card.RA Card.spades]))))
    Examples.code "p" 9
  = DrawCard.Success
      (Post.saved_after_draw
         (Examples.the (Examples.table "p" ["q"]
                          (Examples.stack [Examples.card Card.RA Card.spades])))
         "p" 9
         (removelast (Examples.stack [Examples.card Card.RA Card.spades]))
         (Examples.card Card.RA Card.spades))
      (DrawCard.mkData (Card.toJSON (Examples.card Card.RA Card.spades))
         (GameService.mkRule "venganza_saved" None
            "Carta de venganza guardada para el final del juego" false [])
         (Some "q") 51 false
         (DrawCard.VenganzaInfo "Carta de venganza guardada para el final del juego" 1)))
    by (vm_compute; reflexivity).
  split; [exact E|].
  destruct (drawn_ace_can_be_avenged _ _ Examples.code "p" 9 _
              (Examples.card Card.RA Card.spades) E eq_refl) as (_ & Ha).
  destruct (Ha eq_refl) as (_ & _ & Huse).
  destruct (Huse "q" 10 11) as (g' & r & Hg & _); [vm_compute; reflexivity|].
  exists g', r. exact Hg.
Defined.

(* ------------------------------------------------------------------ *)
(** ** Activating saved cards *)

Lemma card_id_is_toJSON (c : Card.t) (cardId : string) :
  Game.card_id_is cardId (Card.toJSON c) = true <-> cardId = Card.id c.
Proof.
  unfold Game.card_id_is. simpl. rewrite String.eqb_eq. split; congruence.
Qed.

Lemma findIndex_snoc {A} (f : A -> bool) (l : list A) (x : A) :
  forallb (fun y => negb (f y)) l = true -> f x = true ->
  JS.findIndex f (l ++ [x]) = Some (length l).
Proof.
  intros Hl Hx. induction l as [|y l IH]; simpl in *.
  - now rewrite Hx.
  - apply andb_true_iff in Hl as [Hy Hl]. apply negb_true_iff in Hy.
    rewrite Hy, (IH Hl). reflexivity.
Qed.

Lemma splice1_snoc {A} (l : list A) (x : A) : JS.splice1 (length l) (l ++ [x]) = l.
Proof.
  unfold JS.splice1. rewrite take_app_length.
  rewrite drop_ge by (rewrite length_app; simpl; lia). apply app_nil_r.
Qed.

Lemma saveCard_Ok_inv (g g1 : Game.t) (p : string) (c : Card.t) :
  Game.saveCard p c g = Ok g1 ->
  JS.includes p (Game.players g) = true /\
  exists cards,
    JS.lookup_field p (Game.savedCards g) = Some cards /\ (length cards < 3)%nat /\
    g1 = Game.set_savedCards
           (JS.set_field p (cards ++ [Card.toJSON c]) (Game.savedCards g)) g.
Proof.
  unfold Game.saveCard. destruct (JS.includes p (Game.players g)); [|discriminate].
  simpl. destruct (JS.lookup_field p (Game.savedCards g)) as [cards|]; [|discriminate].
  unfold JS.len. destruct (Z.leb_spec 3 (Z.of_nat (length cards))); [discriminate|].
  intros Hok. injection Hok as <-. split; [reflexivity|].
  exists cards. repeat split. lia.
Qed.

(** X16.  Save and activate undo each other on the saved cards.  If a card
    is saved for a player who holds no card with that id, [activateCard] with
    the id of the card returns that very card, the player's saved cards are
    again what they were before the save, the saved cards of the others stay,
    and the history gains one entry marked [isActivated]; turn, deck and
    status are untouched. *)
Theorem saved_card_can_be_activated (g g1 : Game.t) (p : string) (c : Card.t)
    (cards : list JS.val) (now : Z) :
  JS.lookup_field p (Game.savedCards g) = Some cards ->
  forallb (fun x => negb (Game.card_id_is (Card.id c) x)) cards = true ->
  Game.saveCard p c g = Ok g1 ->
  exists g2,
    Game.activateCard p (Card.id c) now g1 = Some (Ok (g2, c)) /\
    JS.lookup_field p (Game.savedCards g2) = Some cards /\
    (forall q, q <> p ->
       JS.lookup_field q (Game.savedCards g2) = JS.lookup_field q (Game.savedCards g)) /\
    Game.history g2
      = Game.history g ++ [Game.activationEntry c p now (Game.ruleFor g (Card.rank c))] /\
    Game.currentTurn g2 = Game.currentTurn g /\
    Game.deck g2 = Game.deck g /\
    Game.status g2 = Game.status g.
Proof.
  intros Hl Hfresh Hs.
  apply saveCard_Ok_inv in Hs as (Hin & cards' & Hl' & _ & ->).
  rewrite Hl in Hl'. injection Hl' as <-.
  unfold Game.activateCard. cbn [Game.players Game.savedCards Game.set_savedCards].
  rewrite Hin, lookup_set_field_eq. cbn [negb].
  rewrite (findIndex_snoc _ cards (Card.toJSON c) Hfresh)
    by (now apply card_id_is_toJSON).
  rewrite lookup_app_r, Nat.sub_diag by lia. simpl.
  rewrite Card_fromJSON_toJSON. eexists. split; [reflexivity|].
  cbn [Game.savedCards Game.set_history Game.set_savedCards Game.history
       Game.currentTurn Game.deck Game.status].
  rewrite splice1_snoc. repeat split.
  - apply lookup_set_field_eq.
  - intros q Hq. now rewrite !lookup_set_field_ne.
Qed.

Lemma saved_card_can_be_activated_witness :
  (JS.lookup_field "p" (Game.savedCards Examples.save_table) = Some [] /\
   Game.saveCard "p" (Examples.card Card.R5 Card.hearts) Examples.save_table
   = Ok (Examples.the (Game.saveCard "p" (Examples.card Card.R5 Card.hearts)
                         Examples.save_table))) /\
  exists g2,
    Game.activateCard "p" "5_hearts" 7
      (Examples.the (Game.saveCard "p" (Examples.card Card.R5 Card.hearts)
                       Examples.save_table))
    = Some (Ok (g2, Examples.card Card.R5 Card.hearts)) /\
    JS.lookup_field "p" (Game.savedCards g2) = Some [].
Proof.
  split; [split; reflexivity|].
  destruct (saved_card_can_be_activated Examples.save_table _ "p"
              (Examples.card Card.R5 Card.hearts) [] 7 eq_refl eq_refl eq_refl)
    as (g2 & E & Hl & _).
  exists g2. split; [exact E|exact Hl].
Defined.

Lemma activateCard_found (g : Game.t) (p cardId : string) (now : Z)
    (cards : list JS.val) (i : nat) (c : Card.t) :
  JS.includes p (Game.players g) = true ->
  JS.lookup_field p (Game.savedCards g) = Some cards ->
  JS.findIndex (Game.card_id_is cardId) cards = Some i ->
  cards !! i = Some (Card.toJSON c) ->
  Game.activateCard p cardId now g
  = Some (Ok (Game.set_history
                (Game.history g ++
                 [Game.activationEntry c p now (Game.ruleFor g (Card.rank c))])
                (Game.set_savedCards
                   (JS.set_field p (JS.splice1 i cards) (Game.savedCards g)) g), c)).
Proof.
  intros Hin Hl Hi Hc. unfold Game.activateCard.
  rewrite Hin, Hl, Hi, Hc. simpl. rewrite Card_fromJSON_toJSON. reflexivity.
Qed.

(** X17.  [activateBrincoCard] checks the rank only after [activateCard] has
    run.  Asked for a saved card that is not a 5, it throws "Esta carta no es
    una carta de brinco", but by then the card has left the player's saved
    cards and entered the history.  Through the use case the same request
    fails with that message and nothing is saved. *)
Theorem brinco_on_another_card_consumes_it (g : Game.t) (p cardId : string) (now : Z)
    (cards : list JS.val) (i : nat) (c : Card.t) :
  JS.includes p (Game.players g) = true ->
  JS.lookup_field p (Game.savedCards g) = Some cards ->
  JS.findIndex (Game.card_id_is cardId) cards = Some i ->
  cards !! i = Some (Card.toJSON c) ->
  Card.rank c <> Card.R5 ->
  exists g',
    Game.activateBrincoCard p cardId now g
    = Some (Game.WrongKind g' "Esta carta no es una carta de brinco") /\
    JS.lookup_field p (Game.savedCards g') = Some (JS.splice1 i cards) /\
    length (JS.splice1 i cards) = pred (length cards) /\
    Game.history g'
    = Game.history g ++ [Game.activationEntry c p now (Game.ruleFor g (Card.rank c))] /\
    forall (gameCode : string) (target : option string),
      gameCode <> "" -> p <> "" -> cardId <> "" ->
      Game.status g = Game.started ->
      ActivateCard.execute (Some g) gameCode p cardId "brinco" target now
      = Some (ActivateCard.Failure "Esta carta no es una carta de brinco").
Proof.
  intros Hin Hl Hi Hc Hr.
  pose proof (activateCard_found g p cardId now cards i c Hin Hl Hi Hc) as E.
  assert (Hne : Card.rank_eqb (Card.rank c) Card.R5 = false).
  { destruct (Card.rank_eqb (Card.rank c) Card.R5) eqn:X; [|reflexivity].
    apply rank_eqb_eq in X. contradiction. }
  assert (EB : Game.activateBrincoCard p cardId now g
               = Some (Game.WrongKind
                   (Game.set_history
                      (Game.history g ++
                       [Game.activationEntry c p now (Game.ruleFor g (Card.rank c))])
                      (Game.set_savedCards
                         (JS.set_field p (JS.splice1 i cards) (Game.savedCards g)) g))
                   "Esta carta no es una carta de brinco")).
  { unfold Game.activateBrincoCard. rewrite E. simpl. rewrite Hne. reflexivity. }
  eexists. split; [exact EB|]. simpl. split; [apply lookup_set_field_eq|].
  split.
  { unfold JS.splice1. apply lookup_lt_Some in Hc.
    rewrite length_app, length_take, length_drop. lia. }
  split; [reflexivity|].
  intros gameCode target Hg Hp Hid Hst. unfold ActivateCard.execute.
  apply String.eqb_neq in Hg, Hp, Hid. rewrite Hg, Hp, Hid, Hin, Hst, EB.
  reflexivity.
Qed.

Lemma brinco_on_another_card_consumes_it_witness :
  (JS.includes "p" (Game.players Examples.full_hand_table) = true /\
   JS.findIndex (Game.card_id_is "9_spades")
     (default [] (JS.lookup_field "p" (Game.savedCards Examples.full_hand_table)))
   = Some 1%nat /\
   Card.rank (Examples.card Card.R9 Card.spades) <> Card.R5) /\
  exists g',
    Game.activateBrincoCard "p" "9_spades" 7 Examples.full_hand_table
    = Some (Game.WrongKind g' "Esta carta no es una carta de brinco") /\
    length <$> JS.lookup_field "p" (Game.savedCards g') = Some 2%nat.
Proof.
  assert (Hr : Card.rank (Examples.card Card.R9 Card.spades) <> Card.R5) by discriminate.
  split; [repeat split; first [assumption|reflexivity]|].
  destruct (brinco_on_another_card_consumes_it Examples.full_hand_table "p" "9_spades" 7
              (default [] (JS.lookup_field "p" (Game.savedCards Examples.full_hand_table)))
              1 (Examples.card Card.R9 Card.spades) eq_refl eq_refl eq_refl eq_refl Hr)
    as (g' & E & Hl & _).
  exists g'. split; [exact E|]. rewrite Hl. reflexivity.
Defined.

Lemma activateCard_Ok_inv (g g' : Game.t) (p cardId : string) (now : Z) (c : Card.t) :
  Game.activateCard p cardId now g = Some (Ok (g', c)) ->
  JS.includes p (Game.players g) = true /\
  exists cards i,
    JS.lookup_field p (Game.savedCards g) = Some cards /\
    JS.findIndex (Game.card_id_is cardId) cards = Some i /\
    cards !! i ≫= Card.fromJSON = Some c /\
    g' = Game.set_history
           (Game.history g ++
            [Game.activationEntry c p now (Game.ruleFor g (Card.rank c))])
           (Game.set_savedCards
              (JS.set_field p (JS.splice1 i cards) (Game.savedCards g)) g).
Proof.
  unfold Game.activateCard.
  destruct (JS.includes p (Game.players g)); [|discriminate]. simpl.
  destruct (JS.lookup_field p (Game.savedCards g)) as [cards|]; [|discriminate].
  destruct (JS.findIndex (Game.card_id_is cardId) cards) as [i|] eqn:Hi; [|discriminate].
  destruct (cards !! i ≫= Card.fromJSON) as [c'|] eqn:Hc; [|discriminate].
  intros Hok. injection Hok as <- <-. split; [reflexivity|].
  exists cards, i. split; [reflexivity|]. split; [exact Hi|]. split; [exact Hc|reflexivity].
Qed.

Lemma useVenganza_Ok_inv (g g' : Game.t) (p target : string) (now : Z) (r : JS.val) :
  Game.useVenganza p target now g = Ok (g', r) ->
  Game.status g = Game.ended /\
  JS.includes target (Game.players g) = true /\
  exists v,
    JS.find (Game.playerId_is p) (Game.venganzaCards g) = Some v /\
    r = Game.venganzaResult (JS.get "card" v) p target now /\
    g' = Game.set_history
           (Game.history g ++ [Game.venganzaHistoryEntry (JS.get "card" v) p target now])
           (Game.set_venganzaCards
              (List.filter (fun x => negb (Game.playerId_is p x)) (Game.venganzaCards g)) g).
Proof.
  unfold Game.useVenganza.
  destruct (Game.status_eqb (Game.status g) Game.ended) eqn:Hst; [|discriminate].
  apply status_eqb_eq in Hst. simpl.
  destruct (JS.find (Game.playerId_is p) (Game.venganzaCards g)) as [v|]; [|discriminate].
  destruct (JS.includes target (Game.players g)); [|discriminate]. simpl.
  intros Hok. injection Hok as <- <-. split; [exact Hst|]. split; [reflexivity|].
  exists v. repeat split.
Qed.

(** X18.  Whatever kind of card the use case [ActivateCard] activates, the
    player is at the table and the game it saves differs from the stored one
    only in the saved cards or the venganza cards and in one more history
    entry: turn, deck, players, host, status, rules and the cup stay.  A
    brinco or movement activation happens in a started game and leaves the
    venganza cards, a venganza in an ended game and leaves the saved cards. *)
Theorem activation_is_no_move (g saved : Game.t) (gameCode p cardId cardType : string)
    (target : option string) (now : Z) (card : JS.val) (msg : string) :
  ActivateCard.execute (Some g) gameCode p cardId cardType target now
  = Some (ActivateCard.Activated saved card msg) ->
  JS.includes p (Game.players g) = true /\
  Game.currentTurn saved = Game.currentTurn g /\
  Game.deck saved = Game.deck g /\
  Game.players saved = Game.players g /\
  Game.host saved = Game.host g /\
  Game.status saved = Game.status g /\
  Game.rules saved = Game.rules g /\
  Game.kingsCount saved = Game.kingsCount g /\
  Game.cupContent saved = Game.cupContent g /\
  length (Game.history saved) = S (length (Game.history g)) /\
  (cardType = "venganza" /\ Game.status g = Game.ended /\
   Game.savedCards saved = Game.savedCards g
   \/
   cardType <> "venganza" /\ Game.status g = Game.started /\
   Game.venganzaCards saved = Game.venganzaCards g).
Proof.
  unfold ActivateCard.execute.
  destruct (String.eqb gameCode ""); [discriminate|].
  destruct (String.eqb p ""); [discriminate|].
  destruct (String.eqb cardId ""); [discriminate|].
  destruct (JS.includes cardType _) eqn:Hty; [|discriminate]. simpl.
  destruct (JS.includes p (Game.players g)) eqn:Hin; [|discriminate]. simpl.
  assert (Hact : forall a,
    (a = Game.activateBrincoCard p cardId now g \/ a = Game.activateMoveCard p cardId now g) ->
    ActivateCard.of_activation <$> a = Some (ActivateCard.Activated saved card msg) ->
    exists c, Game.activateCard p cardId now g = Some (Ok (saved, c))).
  { intros a Ha E.
    destruct Ha as [-> | ->];
      [unfold Game.activateBrincoCard in E | unfold Game.activateMoveCard in E];
      destruct (Game.activateCard p cardId now g) as [[[g' c]|e]|]; simpl in E;
        try discriminate;
        destruct (Card.rank_eqb (Card.rank c) _); simpl in E; try discriminate;
        injection E as <- _ _; exists c; reflexivity. }
  assert (Hframe : forall c, Game.activateCard p cardId now g = Some (Ok (saved, c)) ->
    Game.currentTurn saved = Game.currentTurn g /\
    Game.deck saved = Game.deck g /\
    Game.players saved = Game.players g /\
    Game.host saved = Game.host g /\
    Game.status saved = Game.status g /\
    Game.rules saved = Game.rules g /\
    Game.kingsCount saved = Game.kingsCount g /\
    Game.cupContent saved = Game.cupContent g /\
    length (Game.history saved) = S (length (Game.history g)) /\
    Game.venganzaCards saved = Game.venganzaCards g).
  { intros c E. apply activateCard_Ok_inv in E as (_ & cards & i & _ & _ & _ & ->).
    simpl. rewrite length_app. simpl. repeat split. lia. }
  destruct (String.eqb cardType "brinco") eqn:Hb.
  { apply String.eqb_eq in Hb. subst cardType.
    destruct (Game.status_eqb (Game.status g) Game.started) eqn:Hst; [|discriminate].
    apply status_eqb_eq in Hst. simpl. intros E.
    destruct (Hact _ (or_introl eq_refl) E) as (c & Ec).
    destruct (Hframe c Ec) as (H1 & H2 & H3 & H4 & H5 & H6 & H7 & H8 & H9 & H10).
    repeat (split; [assumption || reflexivity|]). right. repeat split; try assumption.
    discriminate. }
  destruct (String.eqb cardType "movement") eqn:Hm.
  { apply String.eqb_eq in Hm. subst cardType.
    destruct (Game.status_eqb (Game.status g) Game.started) eqn:Hst; [|discriminate].
    apply status_eqb_eq in Hst. simpl. intros E.
    destruct (Hact _ (or_intror eq_refl) E) as (c & Ec).
    destruct (Hframe c Ec) as (H1 & H2 & H3 & H4 & H5 & H6 & H7 & H8 & H9 & H10).
    repeat (split; [assumption || reflexivity|]). right. repeat split; try assumption.
    discriminate. }
  destruct (Game.status_eqb (Game.status g) Game.ended) eqn:Hst; [|discriminate].
  apply status_eqb_eq in Hst. simpl.
  destruct target as [t|]; [|discriminate].
  destruct (String.eqb t ""); [discriminate|].
  destruct (Game.useVenganza p t now g) as [[g' r]|e] eqn:Eu; [|discriminate].
  intros E. injection E as <- _ _.
  apply useVenganza_Ok_inv in Eu as (_ & _ & v & _ & _ & ->).
  simpl. rewrite length_app. simpl.
  repeat (split; [reflexivity || lia|]). left.
  split; [|split; [exact Hst|reflexivity]].
  apply includes_In in Hty. simpl in Hty.
  apply String.eqb_neq in Hb, Hm.
  destruct Hty as [<- | [<- | [<- | []]]]; congruence.
Qed.

Lemma activation_is_no_move_witness :
  exists saved card msg,
    ActivateCard.execute (Some Examples.full_hand_table) Examples.code "p" "5_hearts"
      "brinco" None 7
    = Some (ActivateCard.Activated saved card msg) /\
    Game.currentTurn saved = Game.currentTurn Examples.full_hand_table /\
    Game.deck saved = Game.deck Examples.full_hand_table.
Proof.
  assert (E : exists saved card msg,
    ActivateCard.execute (Some Examples.full_hand_table) Examples.code "p" "5_hearts"
      "brinco" None 7
    = Some (ActivateCard.Activated saved card msg)).
  { vm_compute. eexists _, _, _. reflexivity. }
  destruct E as (saved & card & msg & E).
  exists saved, card, msg. split; [exact E|].
  destruct (activation_is_no_move _ _ _ _ _ _ _ _ _ _ E) as (_ & Ht & Hd & _).
  split; [exact Ht|exact Hd].
Defined.

(** X19.  The activation validator and the activation itself exclude each
    other for a venganza.  [validateCardActivation] accepts a venganza only in
    a started game, while [useVenganza] and the use case ask for an ended
    one: whenever the validator accepts, the method throws "La venganza solo
    se puede usar al final del juego" and the use case fails with that
    message. *)
Theorem validated_venganza_is_refused (trim : string -> string) (g : Game.t)
    (p : string) (target : option string) :
  GameValidationService.r_isValid
    (GameValidationService.validateCardActivation trim g p "venganza" target) = true ->
  (exists t, target = Some t /\ t <> "" /\ JS.includes t (Game.players g) = true) /\
  List.filter (Game.playerId_is p) (Game.venganzaCards g) <> [] /\
  forall (now : Z),
    (forall t, Game.useVenganza p t now g = Throw VenganzaOnlyAtEnd) /\
    (forall gameCode cardId, gameCode <> "" -> cardId <> "" ->
       ActivateCard.execute (Some g) gameCode p cardId "venganza" target now
       = Some (ActivateCard.Failure "La venganza solo se puede usar al final del juego")).
Proof.
  unfold GameValidationService.validateCardActivation,
    GameValidationService.validatePlayerId.
  destruct (String.eqb p "") eqn:Hp; [discriminate|].
  destruct (String.length (trim p) =? 0)%nat; [discriminate|].
  destruct (50 <? String.length p)%nat; [discriminate|]. simpl.
  destruct (Game.status_eqb (Game.status g) Game.started) eqn:Hst; [|discriminate].
  apply status_eqb_eq in Hst. simpl.
  destruct (JS.includes p (Game.players g)) eqn:Hin; [|discriminate]. simpl.
  destruct target as [t|]; [|discriminate].
  destruct (String.eqb t "") eqn:Ht; [discriminate|].
  destruct (JS.includes t (Game.players g)) eqn:Htin; [|discriminate]. simpl.
  destruct (JS.len _ =? 0) eqn:Hlen; [discriminate|]. intros _.
  split; [exists t; split; [reflexivity|]; split; [now apply String.eqb_neq|exact Htin]|].
  split.
  { intros E. rewrite E in Hlen. discriminate. }
  intros now. split.
  - intros t'. unfold Game.useVenganza. rewrite Hst. reflexivity.
  - intros gameCode cardId Hg Hc. unfold ActivateCard.execute.
    apply String.eqb_neq in Hg, Hc. rewrite Hg, Hp, Hc, Hin, Hst. reflexivity.
Qed.

Lemma validated_venganza_is_refused_witness :
  GameValidationService.r_isValid
    (GameValidationService.validateCardActivation (fun s => s) Examples.ace_table "p"
       "venganza" (Some "q")) = true /\
  Game.useVenganza "p" "q" 9 Examples.ace_table = Throw VenganzaOnlyAtEnd.
Proof.
  assert (E : GameValidationService.r_isValid
    (GameValidationService.validateCardActivation (fun s => s) Examples.ace_table "p"
       "venganza" (Some "q")) = true) by (vm_compute; reflexivity).
  split; [exact E|].
  destruct (validated_venganza_is_refused (fun s => s) Examples.ace_table "p" (Some "q") E)
    as (_ & _ & H).
  exact (proj1 (H 9) "q").
Defined.

(** X20.  Only the host ends a game through the use case [EndGame], and only
    once.  A game still waiting can be ended as well as a started one.  The
    saved game is ended at the time of the call and differs in nothing else;
    afterwards a second end, a draw by anyone, a join and a start are all
    refused. *)
Theorem host_ends_the_game_once (g saved : Game.t) (gameCode p : string) (now : Z) :
  EndGame.execute (Some g) gameCode p now = UseCase.Saved saved ->
  p = Game.host g /\ Game.status g <> Game.ended /\
  saved = Game.set_endedAt (Some now) (Game.set_status Game.ended g) /\
  (forall now', EndGame.execute (Some saved) gameCode p now'
                = UseCase.Failure "La partida ya ha terminado") /\
  (forall q now', exists m, DrawCard.execute (Some saved) gameCode q now'
                            = DrawCard.Failure m) /\
  (forall q, Game.addPlayer q saved = Throw GameAlreadyStarted) /\
  (forall now', Game.startGame now' saved = Throw StartNotWaiting).
Proof.
  unfold EndGame.execute.
  destruct (String.eqb gameCode "") eqn:Hg; [discriminate|].
  destruct (String.eqb p "") eqn:Hp; [discriminate|].
  destruct (String.eqb (Game.host g) p) eqn:Hh; [|discriminate]. simpl.
  apply String.eqb_eq in Hh.
  destruct (Game.status_eqb (Game.status g) Game.ended) eqn:Hst; [discriminate|].
  intros E. injection E as <-.
  split; [now symmetry|]. split.
  { intros X. rewrite X in Hst. discriminate. }
  split; [reflexivity|]. split.
  { intros now'. simpl. rewrite Hh, String.eqb_refl. reflexivity. }
  split.
  { intros q now'. unfold DrawCard.execute. rewrite Hg.
    destruct (String.eqb q ""); eexists; reflexivity. }
  split; intros; reflexivity.
Qed.

Lemma host_ends_the_game_once_witness :
  EndGame.execute (Some Examples.lobby) Examples.code "h" 5
  = UseCase.Saved (Game.endGame 5 Examples.lobby) /\
  Game.status Examples.lobby = Game.waiting /\
  Game.addPlayer "x" (Game.endGame 5 Examples.lobby) = Throw GameAlreadyStarted.
Proof.
  assert (E : EndGame.execute (Some Examples.lobby) Examples.code "h" 5
              = UseCase.Saved (Game.endGame 5 Examples.lobby)) by reflexivity.
  split; [exact E|]. split; [reflexivity|].
  destruct (host_ends_the_game_once _ _ _ _ _ E) as (_ & _ & _ & _ & _ & H & _).
  exact (H "x").
Defined.
